(** * chromatic.spectra.phoenix: grid lookup and interpolation of PHOENIX spectra

    A shallow embedding of the in-memory part of [PHOENIXLibrary]
    (src/chromatic/spectra/phoenix.py): [_find_smallest_R], [_find_bounds],
    [_get_interpolation_weights] and [get_spectrum], together with the part of
    [_create_grid] that derives the axis arrays from the keys of the grid.

    Python is duck-typed over its numbers, so the code is embedded once over an
    interface [Num] of the operations it applies to them, and read at two
    instances: the real numbers (exact arithmetic, with [ln] for [np.log]) and
    IEEE-754 binary64 (the arithmetic of [float] and [np.float64]). Properties
    of the control flow are proved for every instance; properties that rest on
    the order or on the field laws are proved over the real numbers, and
    binary64 is used to run the code on concrete inputs. *)

From Stdlib Require Import List Bool Arith ZArith Reals Lra Lia String.
From Stdlib Require Import Floats.PrimFloat Uint63.
From Stdlib Require Import Floats.SpecFloat Floats.FloatOps Floats.FloatAxioms.
From Stdlib Require Import Sorting.Sorted.
Import ListNotations.

Set Implicit Arguments.

(** ** Numbers *)

(** The operations of Python/numpy numbers that the code uses. [eqb], [ltb] and
    [leb] are [==], [<] and [<=]; [isclose_rtol] and [isclose_atol] are the
    defaults [rtol=1e-05] and [atol=1e-08] of [np.isclose]. *)
Class Num (A : Type) : Type := {
  of_Z : Z -> A;
  add : A -> A -> A;
  sub : A -> A -> A;
  mul : A -> A -> A;
  div : A -> A -> A;
  abs : A -> A;
  eqb : A -> A -> bool;
  ltb : A -> A -> bool;
  leb : A -> A -> bool;
  isclose_rtol : A;
  isclose_atol : A
}.

(** [np.log]. *)
Class Log (A : Type) : Type := { log : A -> A }.

(** ** Exceptions and results *)

(** The three coordinates of [_keys_for_indexing], in that order. *)
Inductive Key : Type := Temperature | Logg | Metallicity.

Definition Key_eqb (a b : Key) : bool :=
  match a, b with
  | Temperature, Temperature | Logg, Logg | Metallicity, Metallicity => true
  | _, _ => false
  end.

(** What the f-string of [_find_bounds] interpolates: [repr(inputs)],
    [np.min(possible)], [key] and [np.max(possible)]; [ZeroSizeArray] is the
    message of numpy's own [ValueError] for a reduction of an empty array. *)
Inductive message (A : Type) : Type :=
| OutsideLimits (inputs : list (Key * A)) (lowest : A) (key : Key) (highest : A)
| ZeroSizeArray.

Inductive exception (A : Type) : Type :=
| ValueError (m : message A)
| KeyError (key : A * A * A)
| IndexError
| TypeError
| AssertionError.

Arguments ZeroSizeArray {A}.
Arguments IndexError {A}.
Arguments TypeError {A}.
Arguments AssertionError {A}.

Inductive result (E T : Type) : Type :=
| Ok (x : T)
| Raise (e : E).

Arguments Ok {E T} x.
Arguments Raise {E T} e.

Definition bind {E T U} (c : result E T) (k : T -> result E U) : result E U :=
  match c with
  | Ok x => k x
  | Raise e => Raise e
  end.

Declare Scope py_scope.
Delimit Scope py_scope with py.
Notation "x <- c ;; k" := (bind c (fun x => k))
  (at level 61, c at next level, right associativity) : py_scope.
Notation "' p <- c ;; k" := (bind c (fun p => k))
  (at level 61, p pattern, c at next level, right associativity) : py_scope.
Local Open Scope py_scope.

(** A [for] loop whose body may raise: the first exception ends the loop. *)
Fixpoint for_each {E X S} (xs : list X) (body : X -> S -> result E S) (s : S)
  : result E S :=
  match xs with
  | [] => Ok s
  | x :: xs' => s' <- body x s ;; for_each xs' body s'
  end.

(** ** The library object *)

(** An astropy [Quantity]: an array with a unit attached. *)
Record Quantity (A : Type) : Type := mkQuantity {
  value : list A;
  unit : string
}.

(** The attributes that [_load_grid] sets: [metadata] (the axis arrays under
    the three indexing keys, the shared wavelength array and the two unit
    strings) and [models], the dictionary from [(T, logg, Z)] to a spectrum,
    kept as an association list in insertion order. *)
Record PHOENIXLibrary (A : Type) : Type := mkLibrary {
  metadata : Key -> list A;
  metadata_wavelength : list A;
  metadata_wavelength_unit : string;
  metadata_spectrum_unit : string;
  models : list ((A * A * A) * list A)
}.

Section Code.
Context {A : Type} {num : Num A}.

(** *** numpy helpers *)

(** [value in possible]: some element compares [==] to [value]. *)
Definition contains (possible : list A) (value : A) : bool :=
  existsb (fun p => eqb p value) possible.

(** [np.min] and [np.max]; [None] stands for the [ValueError] numpy raises on
    an empty array, which [_find_bounds] catches and turns into [None]. *)
Definition np_min (a : list A) : option A :=
  match a with
  | [] => None
  | x :: rest => Some (fold_left (fun m y => if ltb y m then y else m) rest x)
  end.

Definition np_max (a : list A) : option A :=
  match a with
  | [] => None
  | x :: rest => Some (fold_left (fun m y => if ltb m y then y else m) rest x)
  end.

(** [np.sum] of a one-dimensional array, accumulated first to last (numpy may
    group the additions differently, which matters to rounding only). *)
Definition np_sum (a : list A) : A := fold_left add a (of_Z 0).

(** [np.zeros(n)]. *)
Definition np_zeros (n : nat) : list A := repeat (of_Z 0) n.

(** [a[i] = x]; numpy raises [IndexError] when [i] is out of range. *)
Fixpoint setitem (a : list A) (i : nat) (x : A) : result (exception A) (list A) :=
  match a, i with
  | [], _ => Raise IndexError
  | _ :: rest, O => Ok (x :: rest)
  | y :: rest, S j => rest' <- setitem rest j x ;; Ok (y :: rest')
  end.

(** [a[i]] on a sequence of any element type. *)
Definition getitem {T : Type} (a : list T) (i : nat) : result (exception A) T :=
  match nth_error a i with
  | Some x => Ok x
  | None => Raise IndexError
  end.

(** [np.sum(rows, axis=0)]: the rows added elementwise, first to last. The
    rows of a grid all have the length of the wavelength array. *)
Fixpoint add_rows (r s : list A) : list A :=
  match r, s with
  | x :: r', y :: s' => add x y :: add_rows r' s'
  | _, _ => []
  end.

Definition np_sum_axis0 (rows : list (list A)) : list A :=
  match rows with
  | [] => []
  | r :: rest => fold_left add_rows rest r
  end.

(** [np.isclose(a, b)] with the default tolerances, on finite numbers. *)
Definition np_isclose (a b : A) : bool :=
  leb (abs (sub a b)) (add isclose_atol (mul isclose_rtol (abs b))).

(** *** Dictionary access *)

Definition key_eqb (k1 k2 : A * A * A) : bool :=
  let '(t1, g1, z1) := k1 in
  let '(t2, g2, z2) := k2 in
  eqb t1 t2 && eqb g1 g2 && eqb z1 z2.

(** [d.get(key)]: tuples compare by [==] on their components. *)
Fixpoint models_get (d : list ((A * A * A) * list A)) (key : A * A * A)
  : option (list A) :=
  match d with
  | [] => None
  | (k, v) :: rest => if key_eqb k key then Some v else models_get rest key
  end.

(** [self.models[key]]: [KeyError] when there is no such key. *)
Definition models_getitem (self : PHOENIXLibrary A) (key : A * A * A)
  : result (exception A) (list A) :=
  match models_get (models self) key with
  | Some v => Ok v
  | None => Raise (KeyError key)
  end.

(** [self.wavelength], set by [_load_grid]. *)
Definition wavelength (self : PHOENIXLibrary A) : Quantity A :=
  mkQuantity (metadata_wavelength self) (metadata_wavelength_unit self).

(** *** [_find_smallest_R] *)

(** [np.flatnonzero(mask)]: the indices at which [mask] holds. *)
Fixpoint flatnonzero_from (i : nat) (mask : list bool) : list nat :=
  match mask with
  | [] => []
  | b :: rest =>
      if b then i :: flatnonzero_from (S i) rest else flatnonzero_from (S i) rest
  end.

Definition flatnonzero (mask : list bool) : list nat := flatnonzero_from 0 mask.

(** The warning of the [else] branch, with the requested and the largest R. *)
Inductive warning : Type :=
| HigherThanLargest (R : A) (largest : Z).

(** [np.max] of the (non-empty) list of integer resolutions. *)
Definition np_max_Z (a : list Z) : Z := fold_left Z.max a (hd 0%Z a).

(** [i] is [np.flatnonzero(...)[0]]: indexing the empty array raises
    [IndexError] before [i] is bound, and an index that was found is an
    integer, which is never [None]; [Some i0] is that integer. The result is
    paired with the warnings issued on the way. *)
Definition _find_smallest_R (_available_resolutions : list Z) (R : A)
  : list warning * result (exception A) Z :=
  match flatnonzero (map (fun a => leb R (of_Z a)) _available_resolutions) with
  | [] => ([], Raise IndexError)
  | i0 :: _ =>
      let i : option nat := Some i0 in
      match i with
      | Some i => ([], getitem _available_resolutions i)
      | None => ([HigherThanLargest R (np_max_Z _available_resolutions)],
                 Ok (np_max_Z _available_resolutions))
      end
  end.

(** *** [_find_bounds] *)

Definition _find_bounds (self : PHOENIXLibrary A) (value : A) (key : Key)
    (inputs : list (Key * A)) : result (exception A) (list A) :=
  let possible := metadata self key in
  if contains possible value then Ok [value]
  else
    let above := np_min (filter (fun p => ltb value p) possible) in
    let below := np_max (filter (fun p => leb p value) possible) in
    match above, below with
    | Some above, Some below => Ok [below; above]
    | _, _ =>
        match np_min possible, np_max possible with
        | Some lowest, Some highest =>
            Raise (ValueError (OutsideLimits inputs lowest key highest))
        | _, _ => Raise (ValueError ZeroSizeArray)
        end
    end.

(** *** [_get_interpolation_weights] *)

(** [None] is Python's implicit return when [np.size(bounds)] is neither 1
    nor 2. *)
Definition _get_interpolation_weights (value : A) (bounds : list A)
  : option (list A) :=
  match bounds with
  | [_] => Some [of_Z 1]
  | [b0; b1] =>
      let span := sub b1 b0 in
      let weight_below := div (sub b1 value) span in
      let weight_above := div (sub value b0) span in
      Some [weight_below; weight_above]
  | _ => None
  end.

(** *** [get_spectrum] *)

Context {lg : Log A}.

(** [dict(temperature=temperature, logg=logg, metallicity=metallicity)]. *)
Definition make_inputs (temperature logg metallicity : A) : list (Key * A) :=
  [(Temperature, temperature); (Logg, logg); (Metallicity, metallicity)].

(** [inputs.get(key)]. *)
Fixpoint inputs_get (inputs : list (Key * A)) (key : Key) : option A :=
  match inputs with
  | [] => None
  | (k, v) :: rest => if Key_eqb k key then Some v else inputs_get rest key
  end.

(** [zip(weights, bounds)] of an axis; iterating over the [None] that
    [_get_interpolation_weights] may return raises [TypeError]. *)
Definition zip_weights (weights : option (list A)) (bounds : list A)
  : result (exception A) (list (A * A)) :=
  match weights with
  | Some w => Ok (combine w bounds)
  | None => Raise TypeError
  end.

(** The state of the triple loop: [weights], [spectra] and the counter [i]. *)
Definition loop_state : Type := list A * list (list A) * nat.

(** The body of the innermost loop (lines 601-606). *)
Definition loop_body (self : PHOENIXLibrary A) (wt t wg g : A) (wzz : A * A)
    (st : loop_state) : result (exception A) loop_state :=
  let '(wz, z) := wzz in
  let '(weights, spectra, i) := st in
  weights' <- setitem weights i (mul (mul wt wg) wz) ;;
  let key := (t, g, z) in
  this_spectrum <- models_getitem self key ;;
  Ok (weights', spectra ++ [this_spectrum], S i).

(** The three nested [for] loops (lines 595-606), from [weights = np.zeros(N)],
    [spectra = []], [i = 0]. *)
Definition loop (self : PHOENIXLibrary A) (N : nat)
    (wT wG wZ : list (A * A)) : result (exception A) loop_state :=
  for_each wT (fun '(wt, t) =>
    for_each wG (fun '(wg, g) =>
      for_each wZ (loop_body self wt t wg g)))
    (np_zeros N, [], O).

(** The assertion of line 609. *)
Definition weight_sum_accepted (weight_sum : A) : bool :=
  np_isclose weight_sum (of_Z 1) || leb weight_sum (of_Z 1).

(** [weights[:, np.newaxis] * spectra]: row [k] scaled by [weights[k]]. *)
Fixpoint scale_rows (weights : list A) (spectra : list (list A)) : list (list A) :=
  match weights, spectra with
  | w :: ws, s :: ss => map (mul w) s :: scale_rows ws ss
  | _, _ => []
  end.

(** Lines 588-606 of [get_spectrum]: the per-axis weights, then the triple loop;
    the value is the pair of [weights] and [spectra] the loop leaves behind.
    The three [zip]s are formed up front: on the bounds that [_find_bounds]
    returns none of them raises (see [weights_and_spectra_spec]). *)
Definition weights_and_spectra (self : PHOENIXLibrary A)
    (temperature logg metallicity : A)
    (bounding_temperature bounding_logg bounding_metallicity : list A) (N : nat)
  : result (exception A) (list A * list (list A)) :=
  let logT := log temperature in
  let bounding_logT := map log bounding_temperature in
  let weight_temperature := _get_interpolation_weights logT bounding_logT in
  let weight_logg := _get_interpolation_weights logg bounding_logg in
  let weight_metallicity :=
    _get_interpolation_weights metallicity bounding_metallicity in
  wT <- zip_weights weight_temperature bounding_temperature ;;
  wG <- zip_weights weight_logg bounding_logg ;;
  wZ <- zip_weights weight_metallicity bounding_metallicity ;;
  '(weights, spectra, _) <- loop self N wT wG wZ ;;
  Ok (weights, spectra).

(** Lines 608-611: the assertion, the division by the sum and the weighted
    sum of the spectra. *)
Definition combine_spectra (weights : list A) (spectra : list (list A))
  : result (exception A) (list A) :=
  let weight_sum := np_sum weights in
  if weight_sum_accepted weight_sum then
    let weights := map (fun w => div w weight_sum) weights in
    Ok (np_sum_axis0 (scale_rows weights spectra))
  else Raise AssertionError.

(** [get_spectrum] with [visualize=False]. A one-dimensional spectrum is its
    own [flatten()]. *)
Definition get_spectrum (self : PHOENIXLibrary A)
    (temperature logg metallicity : A)
  : result (exception A) (Quantity A * Quantity A) :=
  let inputs := make_inputs temperature logg metallicity in
  bounding_temperature <- _find_bounds self temperature Temperature inputs ;;
  bounding_logg <- _find_bounds self logg Logg inputs ;;
  bounding_metallicity <- _find_bounds self metallicity Metallicity inputs ;;
  let N := (List.length bounding_temperature * List.length bounding_logg
            * List.length bounding_metallicity)%nat in
  spectrum <-
    (if Nat.eqb N 1 then
       t <- getitem bounding_temperature 0 ;;
       g <- getitem bounding_logg 0 ;;
       z <- getitem bounding_metallicity 0 ;;
       let key := (t, g, z) in
       models_getitem self key
     else
       '(weights, spectra) <-
         weights_and_spectra self temperature logg metallicity
           bounding_temperature bounding_logg bounding_metallicity N ;;
       combine_spectra weights spectra) ;;
  Ok (wavelength self, mkQuantity spectrum (metadata_spectrum_unit self)).

(** *** [_create_grid]: the axis arrays of a grid *)

(** Coordinate [i] of a key tuple, [x[i]]. *)
Definition coordinate (key : Key) (x : A * A * A) : A :=
  let '(t, g, z) := x in
  match key with
  | Temperature => t
  | Logg => g
  | Metallicity => z
  end.

(** [np.unique]: sorted, without repetitions (insertion into a sorted list). *)
Fixpoint insert_unique (x : A) (sorted : list A) : list A :=
  match sorted with
  | [] => [x]
  | y :: rest =>
      if eqb x y then sorted
      else if ltb x y then x :: sorted
      else y :: insert_unique x rest
  end.

Definition np_unique (a : list A) : list A :=
  fold_right insert_unique [] a.

(** [shared[k] = np.unique([x[i] for x in d])] (lines 441-442). *)
Definition axis_of_models (d : list ((A * A * A) * list A)) (k : Key) : list A :=
  np_unique (map (fun kv => coordinate k (fst kv)) d).

End Code.

(** The resolutions available as precalculated grids. *)
Definition _available_resolutions : list Z :=
  [3; 10; 30; 100; 300; 1000; 3000; 10000; 30000; 100000]%Z.

(** ** Exact arithmetic: the real numbers *)

Definition Reqb (x y : R) : bool := if Req_dec_T x y then true else false.
Definition Rltb (x y : R) : bool := if Rlt_dec x y then true else false.
Definition Rleb (x y : R) : bool := if Rle_dec x y then true else false.

#[global] Instance R_Num : Num R := {|
  of_Z := IZR;
  add := Rplus;
  sub := Rminus;
  mul := Rmult;
  div := Rdiv;
  abs := Rabs;
  eqb := Reqb;
  ltb := Rltb;
  leb := Rleb;
  isclose_rtol := (/ 100000)%R;
  isclose_atol := (/ 100000000)%R
|}.

#[global] Instance R_Log : Log R := {| log := ln |}.

(** ** IEEE-754 binary64: Python's [float] and numpy's [float64] *)

(** Conversion of a (small) Python [int]. *)
Definition float_of_Z (z : Z) : float :=
  match z with
  | Z0 => 0%float
  | Zpos _ => PrimFloat.of_uint63 (Uint63.of_Z z)
  | Zneg p => PrimFloat.opp (PrimFloat.of_uint63 (Uint63.of_Z (Zpos p)))
  end.

(** The tolerances are the doubles nearest to [1e-05] and [1e-08]. [np.log]
    is not an operation of binary64 arithmetic itself, so there is no [Log]
    instance: in binary64 the code is read up to [_get_interpolation_weights]. *)
#[global] Instance float_Num : Num float := {|
  of_Z := float_of_Z;
  add := PrimFloat.add;
  sub := PrimFloat.sub;
  mul := PrimFloat.mul;
  div := PrimFloat.div;
  abs := PrimFloat.abs;
  eqb := PrimFloat.eqb;
  ltb := PrimFloat.ltb;
  leb := PrimFloat.leb;
  isclose_rtol := 0x1.4f8b588e368f1p-17%float;
  isclose_atol := 0x1.5798ee2308c3ap-27%float
|}.

(** ** Notions used to state the properties *)

Section Notions.
Context {A : Type} {num : Num A}.

(** The lattice points of a query in the order the triple loop visits them,
    each with its combined weight. *)
Definition lattice (wT wG wZ : list (A * A)) : list (A * (A * A * A)) :=
  flat_map (fun '(wt, t) =>
    flat_map (fun '(wg, g) =>
      map (fun '(wz, z) => (mul (mul wt wg) wz, (t, g, z))) wZ) wG) wT.

(** One iteration of the triple loop, on a lattice point. *)
Definition lattice_body (self : PHOENIXLibrary A) (p : A * (A * A * A))
    (st : loop_state) : result (exception A) loop_state :=
  let '(w, key) := p in
  let '(weights, spectra, i) := st in
  weights' <- setitem weights i w ;;
  this_spectrum <- models_getitem self key ;;
  Ok (weights', spectra ++ [this_spectrum], S i).

(** The spectra of a list of keys, or the [KeyError] of the first absent one. *)
Fixpoint lookup_all (self : PHOENIXLibrary A) (keys : list (A * A * A))
  : result (exception A) (list (list A)) :=
  match keys with
  | [] => Ok []
  | k :: rest =>
      s <- models_getitem self k ;;
      ss <- lookup_all self rest ;;
      Ok (s :: ss)
  end.

(** The keys [(t, g, z)] built from per-axis bounds, in loop order. *)
Definition lattice_keys (bT bG bZ : list A) : list (A * A * A) :=
  flat_map (fun t => flat_map (fun g => map (fun z => (t, g, z)) bZ) bG) bT.

(** The product of three per-axis weights for every combination, in loop
    order. *)
Definition combined (wT wG wZ : list A) : list A :=
  flat_map (fun wt => flat_map (fun wg => map (fun wz => mul (mul wt wg) wz) wZ) wG) wT.

(** What [_find_bounds] returns: one value, or a pair. *)
Definition bound_shaped (b : list A) : Prop :=
  match b with
  | [_] | [_; _] => True
  | _ => False
  end.

(** The data-model invariant of a grid: every coordinate of a key of [models]
    occurs in the axis array of its indexing key. *)
Definition indexed (self : PHOENIXLibrary A) : Prop :=
  forall key s, models_get (models self) key = Some s ->
  forall k, contains (metadata self k) (coordinate k key) = true.

(** What an out-of-limits message names. *)
Definition named_axis (m : message A) : option Key :=
  match m with
  | OutsideLimits _ _ key _ => Some key
  | ZeroSizeArray => None
  end.

Definition named_request (m : message A) : option A :=
  match m with
  | OutsideLimits inputs _ key _ => inputs_get inputs key
  | ZeroSizeArray => None
  end.

Definition named_limits (m : message A) : option (A * A) :=
  match m with
  | OutsideLimits _ lowest _ highest => Some (lowest, highest)
  | ZeroSizeArray => None
  end.

End Notions.

Local Open Scope R_scope.

(** [m] is the greatest element of [possible] that is [<= v]. *)
Definition greatest_le (possible : list R) (v m : R) : Prop :=
  In m possible /\ m <= v /\ forall p, In p possible -> p <= v -> p <= m.

(** [m] is the least element of [possible] that is [> v]. *)
Definition least_gt (possible : list R) (v m : R) : Prop :=
  In m possible /\ v < m /\ forall p, In p possible -> v < p -> m <= p.

(** [m] is the minimum, respectively the maximum, of [possible]. *)
Definition minimum (possible : list R) (m : R) : Prop :=
  In m possible /\ forall p, In p possible -> m <= p.

Definition maximum (possible : list R) (m : R) : Prop :=
  In m possible /\ forall p, In p possible -> p <= m.

(** The weights of section 4.3 of the specification, in its words: weight 1
    for a single value; for [(below, above)] the pair
    [(above - value) / (above - below)], [(value - below) / (above - below)]. *)
Definition linear_weights (v : R) (bounds : list R) : list R :=
  match bounds with
  | [below; above] => [(above - v) / (above - below); (v - below) / (above - below)]
  | _ => [1]
  end.

(** The same after log-transforming the value and the bounds. *)
Definition log_weights (v : R) (bounds : list R) : list R :=
  match bounds with
  | [below; above] =>
      [(ln above - ln v) / (ln above - ln below);
       (ln v - ln below) / (ln above - ln below)]
  | _ => [1]
  end.

(** A weight of an interpolation: positive and at most 1. *)
Definition unit_weight (w : R) : Prop := 0 < w <= 1.

(** ** Example grids *)

(** The grid that [_create_grid] saves and [_load_grid] reads back from the
    dictionary [d]: the axis arrays are computed from the keys of [d]. *)
Definition created_grid {A : Type} {num : Num A} (d : list ((A * A * A) * list A))
    (wavelength : list A) (wavelength_unit spectrum_unit : string)
  : PHOENIXLibrary A :=
  {| metadata := axis_of_models d;
     metadata_wavelength := wavelength;
     metadata_wavelength_unit := wavelength_unit;
     metadata_spectrum_unit := spectrum_unit;
     models := d |}.

(** Two temperatures, two surface gravities, one metallicity. *)
Definition example_models : list ((R * R * R) * list R) :=
  [ ((3000, 4.5, 0), [1; 2; 3]);
    ((3000, 5, 0), [4; 5; 6]);
    ((3500, 4.5, 0), [7; 8; 9]);
    ((3500, 5, 0), [10; 11; 12]) ].

Definition example_grid : PHOENIXLibrary R :=
  created_grid example_models [1; 2; 3] "micron" "ph / (m2 nm s)".

(** The same lattice with the point [(3500, 5, 0)] missing. *)
Definition sparse_models : list ((R * R * R) * list R) :=
  [ ((3000, 4.5, 0), [1; 2; 3]);
    ((3000, 5, 0), [4; 5; 6]);
    ((3500, 4.5, 0), [7; 8; 9]) ].

Definition sparse_grid : PHOENIXLibrary R :=
  created_grid sparse_models [1; 2; 3] "micron" "ph / (m2 nm s)".

(** ** The loop of [_create_grid] *)

Section CreateGrid.
Context {A : Type} {num : Num A}.

(** [d[key] = v]: the value of an existing key is replaced where it stands, a
    new key is added at the end. *)
Fixpoint models_set (d : list ((A * A * A) * list A)) (key : A * A * A)
    (v : list A) : list ((A * A * A) * list A) :=
  match d with
  | [] => [(key, v)]
  | (k, x) :: rest =>
      if key_eqb k key then (k, v) :: rest else (k, x) :: models_set rest key v
  end.

(** What one pass of the loop works on, once the raw file is read, converted
    and binned: the key [(T, logg, Z)] from its name, and the arrays [w.value]
    and [f.value]. *)
Definition binned_file : Type := (A * A * A) * list A * list A.

(** The body of the loop of lines 412-438, from the test for
    [shared["wavelength"]] on; the state is that entry of [shared] (absent
    at first) and the dictionary [d]. *)
Definition create_grid_body (file : binned_file)
    (st : option (list A) * list ((A * A * A) * list A))
  : result (exception A) (option (list A) * list ((A * A * A) * list A)) :=
  let '(key, w, f) := file in
  let '(shared_wavelength, d) := st in
  let shared_wavelength :=
    match shared_wavelength with
    | None => w
    | Some present => present
    end in
  if Nat.eqb (List.length f) (List.length shared_wavelength)
  then Ok (Some shared_wavelength, models_set d key f)
  else Raise AssertionError.

(** The loop, from [d = {}] and no [shared["wavelength"]]. *)
Definition create_grid_loop (files : list binned_file)
  : result (exception A) (option (list A) * list ((A * A * A) * list A)) :=
  for_each files create_grid_body (None, []).

End CreateGrid.

(** Three binned files, the last of which has the key of the first. *)
Definition example_files : list (@binned_file R) :=
  [ ((3000, 4.5, 0), [1; 2; 3], [1; 2; 3]);
    ((3000, 5, 0), [1; 2; 3], [4; 5; 6]);
    ((3000, 4.5, 0), [1; 2; 3], [7; 8; 9]) ].

(** A grid whose two temperatures hold the same spectrum. *)
Definition constant_models : list ((R * R * R) * list R) :=
  [ ((3000, 5, 0), [4; 5; 6]);
    ((3500, 5, 0), [4; 5; 6]) ].

Definition constant_grid : PHOENIXLibrary R :=
  created_grid constant_models [1; 2; 3] "micron" "ph / (m2 nm s)".

(** * Properties *)

Unset Implicit Arguments.

(** ** Loops *)

Section LoopFacts.
Context {A : Type} {num : Num A}.

Lemma for_each_ext {E X S} (xs : list X) (f g : X -> S -> result E S) s :
  (forall x s, f x s = g x s) -> for_each xs f s = for_each xs g s.
Proof.
  intros Hfg. revert s. induction xs as [|x xs IH]; intros s; simpl; auto.
  rewrite Hfg. destruct (g x s); simpl; auto.
Qed.

Lemma for_each_app {E X S} (xs ys : list X) (f : X -> S -> result E S) s :
  for_each (xs ++ ys) f s = (s' <- for_each xs f s ;; for_each ys f s').
Proof.
  revert s. induction xs as [|x xs IH]; intros s; simpl; auto.
  destruct (f x s); simpl; auto.
Qed.

Lemma for_each_map {E X Y S} (h : X -> Y) (xs : list X)
    (f : Y -> S -> result E S) s :
  for_each (map h xs) f s = for_each xs (fun x => f (h x)) s.
Proof.
  revert s. induction xs as [|x xs IH]; intros s; simpl; auto.
  destruct (f (h x) s); simpl; auto.
Qed.

Lemma for_each_flat_map {E X Y S} (h : X -> list Y) (xs : list X)
    (f : Y -> S -> result E S) s :
  for_each (flat_map h xs) f s = for_each xs (fun x => for_each (h x) f) s.
Proof.
  revert s. induction xs as [|x xs IH]; intros s; simpl; auto.
  rewrite for_each_app. destruct (for_each (h x) f s); simpl; auto.
Qed.

(** The triple loop is one loop over the lattice. *)
Lemma loop_lattice (self : PHOENIXLibrary A) N wT wG wZ :
  loop self N wT wG wZ
  = for_each (lattice wT wG wZ) (lattice_body self) (np_zeros N, [], O).
Proof.
  unfold loop, lattice. rewrite for_each_flat_map.
  apply for_each_ext. intros [wt t] s.
  rewrite for_each_flat_map.
  apply for_each_ext. intros [wg g] s'.
  rewrite for_each_map.
  apply for_each_ext. intros [wz z] [[ws sp] i]. reflexivity.
Qed.

Lemma setitem_middle (done rest : list A) (y x : A) :
  setitem (done ++ y :: rest) (List.length done) x = Ok (done ++ x :: rest).
Proof.
  induction done as [|d done IH]; simpl; auto.
  rewrite IH. reflexivity.
Qed.

Lemma lattice_loop_from (self : PHOENIXLibrary A) l :
  forall (done : list A) (m : nat) (sp : list (list A)),
  (List.length l <= m)%nat ->
  for_each l (lattice_body self) (done ++ np_zeros m, sp, List.length done)
  = match lookup_all self (map snd l) with
    | Ok specs =>
        Ok (done ++ map fst l ++ np_zeros (m - List.length l), sp ++ specs,
            (List.length done + List.length l)%nat)
    | Raise e => Raise e
    end.
Proof.
  induction l as [|[w key] l IH]; intros done m sp Hm.
  - simpl. rewrite Nat.sub_0_r, app_nil_r, Nat.add_0_r. reflexivity.
  - simpl in Hm. destruct m as [|m]; [lia|].
    change (np_zeros (S m)) with (of_Z 0 :: np_zeros m).
    cbn [for_each lattice_body map snd fst bind].
    rewrite setitem_middle. cbn [bind lookup_all].
    destruct (models_getitem self key) as [s|e]; simpl; auto.
    replace (done ++ w :: np_zeros m) with ((done ++ [w]) ++ np_zeros m)
      by (rewrite <- app_assoc; reflexivity).
    replace (S (List.length done)) with (List.length (done ++ [w]))
      by (rewrite length_app; simpl; lia).
    rewrite IH by lia.
    destruct (lookup_all self (map snd l)) as [specs|e]; simpl; auto.
    rewrite <- !app_assoc, length_app. simpl.
    replace (List.length done + 1 + List.length l)%nat
      with (List.length done + S (List.length l))%nat by lia.
    reflexivity.
Qed.

(** From the initial state [weights = np.zeros(N)], [spectra = []], [i = 0]. *)
Lemma lattice_loop (self : PHOENIXLibrary A) l (N : nat) :
  (List.length l <= N)%nat ->
  for_each l (lattice_body self) (np_zeros N, [], O)
  = match lookup_all self (map snd l) with
    | Ok specs =>
        Ok (map fst l ++ np_zeros (N - List.length l), specs, List.length l)
    | Raise e => Raise e
    end.
Proof.
  intros HN. exact (lattice_loop_from self l [] N [] HN).
Qed.

End LoopFacts.

(** ** Facts that hold for every kind of number *)

Section GenericFacts.
Context {A : Type} {num : Num A} {lg : Log A}.

Lemma find_bounds_shaped (self : PHOENIXLibrary A) v key inputs b :
  _find_bounds self v key inputs = Ok b -> bound_shaped b.
Proof.
  unfold _find_bounds.
  repeat match goal with
         | |- context [if ?c then _ else _] => destruct c
         | |- context [match ?x with Some _ => _ | None => _ end] => destruct x
         end;
    intros H; try discriminate; injection H as <-; exact I.
Qed.

Lemma lookup_all_raise (self : PHOENIXLibrary A) keys e :
  lookup_all self keys = Raise e ->
  exists k, In k keys /\ models_get (models self) k = None /\ e = KeyError k.
Proof.
  induction keys as [|k keys IH]; simpl; [discriminate|].
  unfold models_getitem at 1.
  destruct (models_get (models self) k) eqn:Hk; simpl.
  - destruct (lookup_all self keys) as [ss|e'] eqn:Hl; simpl; [discriminate|].
    intros H; injection H as ->.
    destruct (IH eq_refl) as (k' & Hin & Hnone & ->). eauto.
  - intros H; injection H as <-. eauto.
Qed.

Lemma lookup_all_ok (self : PHOENIXLibrary A) keys specs :
  lookup_all self keys = Ok specs ->
  forall k, In k keys -> models_get (models self) k <> None.
Proof.
  revert specs. induction keys as [|k keys IH]; simpl; intros specs H k' Hin;
    [contradiction|].
  unfold models_getitem in H at 1.
  destruct (models_get (models self) k) eqn:Hk; simpl in H; [|discriminate].
  destruct (lookup_all self keys) as [ss|e'] eqn:Hl; simpl in H; [|discriminate].
  destruct Hin as [<-|Hin]; [congruence|]. eapply IH; eauto.
Qed.

Lemma lookup_all_total (self : PHOENIXLibrary A) keys :
  (forall k, In k keys -> models_get (models self) k <> None) ->
  exists specs, lookup_all self keys = Ok specs
                /\ List.length specs = List.length keys.
Proof.
  induction keys as [|k keys IH]; simpl; intros H; [eauto|].
  unfold models_getitem at 1.
  destruct (models_get (models self) k) eqn:Hk; simpl.
  - destruct IH as (ss & -> & Hlen); [auto|]. simpl. eexists; split; eauto.
    simpl; congruence.
  - exfalso. apply (H k); auto.
Qed.

(** What lines 588-606 compute on bounds as [_find_bounds] returns them: the
    spectra of the lattice keys with the combined weights, or the [KeyError]
    of the first absent key. *)
Lemma weights_and_spectra_spec (self : PHOENIXLibrary A) T g z bT bG bZ :
  bound_shaped bT -> bound_shaped bG -> bound_shaped bZ ->
  exists wT wG wZ,
    _get_interpolation_weights (log T) (map log bT) = Some wT /\
    _get_interpolation_weights g bG = Some wG /\
    _get_interpolation_weights z bZ = Some wZ /\
    weights_and_spectra self T g z bT bG bZ
      (List.length bT * List.length bG * List.length bZ)
    = match lookup_all self (lattice_keys bT bG bZ) with
      | Ok specs => Ok (combined wT wG wZ, specs)
      | Raise e => Raise e
      end.
Proof.
  intros HT HG HZ.
  destruct bT as [|t0 [|t1 [|? ?]]]; try contradiction;
  destruct bG as [|g0 [|g1 [|? ?]]]; try contradiction;
  destruct bZ as [|z0 [|z1 [|? ?]]]; try contradiction;
  (do 3 eexists; repeat (split; [reflexivity|]);
   unfold weights_and_spectra;
   cbn [map _get_interpolation_weights zip_weights bind combine];
   rewrite loop_lattice;
   rewrite lattice_loop by (simpl; lia);
   cbn [lattice lattice_keys flat_map map app snd fst];
   match goal with
   | |- context [lookup_all self ?ks] => destruct (lookup_all self ks)
   end; reflexivity).
Qed.

End GenericFacts.

(** ** Comparisons and reductions over the real numbers *)

Arguments Reqb : simpl never.
Arguments Rltb : simpl never.
Arguments Rleb : simpl never.

Lemma Reqb_eq (x y : R) : Reqb x y = true <-> x = y.
Proof. unfold Reqb. destruct (Req_dec_T x y); split; intros; congruence. Qed.

Lemma Reqb_neq (x y : R) : Reqb x y = false <-> x <> y.
Proof. unfold Reqb. destruct (Req_dec_T x y); split; intros; congruence. Qed.

Lemma Rltb_lt (x y : R) : Rltb x y = true <-> x < y.
Proof. unfold Rltb. destruct (Rlt_dec x y); split; intros; auto; discriminate. Qed.

Lemma Rltb_ge (x y : R) : Rltb x y = false <-> y <= x.
Proof.
  unfold Rltb. destruct (Rlt_dec x y); split; intros; auto; try discriminate; lra.
Qed.

Lemma Rleb_le (x y : R) : Rleb x y = true <-> x <= y.
Proof. unfold Rleb. destruct (Rle_dec x y); split; intros; auto; discriminate. Qed.

Lemma Rleb_gt (x y : R) : Rleb x y = false <-> y < x.
Proof.
  unfold Rleb. destruct (Rle_dec x y); split; intros; auto; try discriminate; lra.
Qed.

(** Decides the comparisons of a goal whose operands are literals. *)
Ltac Rdecide :=
  repeat match goal with
  | |- context [Reqb ?x ?y] =>
      first [ rewrite (proj2 (Reqb_eq x y)) by lra
            | rewrite (proj2 (Reqb_neq x y)) by lra ]
  | |- context [Rltb ?x ?y] =>
      first [ rewrite (proj2 (Rltb_lt x y)) by lra
            | rewrite (proj2 (Rltb_ge x y)) by lra ]
  | |- context [Rleb ?x ?y] =>
      first [ rewrite (proj2 (Rleb_le x y)) by lra
            | rewrite (proj2 (Rleb_gt x y)) by lra ]
  end.

Lemma contains_In (possible : list R) (v : R) :
  contains possible v = true <-> In v possible.
Proof.
  unfold contains. rewrite existsb_exists. split.
  - intros (p & Hin & Heq). apply Reqb_eq in Heq. subst. exact Hin.
  - intros Hin. exists v. split; [exact Hin | apply Reqb_eq; reflexivity].
Qed.

Lemma contains_not_In (possible : list R) (v : R) :
  contains possible v = false <-> ~ In v possible.
Proof.
  rewrite <- contains_In. destruct (contains possible v); split; intros;
    congruence.
Qed.

Lemma fold_min_spec (rest : list R) :
  forall x, let m := fold_left (fun m y => if Rltb y m then y else m) rest x in
  (m = x \/ In m rest) /\ m <= x /\ forall y, In y rest -> m <= y.
Proof.
  induction rest as [|y rest IH]; intros x; simpl.
  - repeat split; auto; try lra. intros ? [].
  - destruct (Rltb y x) eqn:Hlt;
      [apply Rltb_lt in Hlt | apply Rltb_ge in Hlt];
      match goal with
      | |- context [fold_left ?f rest ?a] =>
          destruct (IH a) as (Hin & Hle & Hall)
      end; simpl in Hin, Hle, Hall.
    + repeat split.
      * destruct Hin; auto.
      * lra.
      * intros y' [<-|Hy']; auto.
    + repeat split.
      * destruct Hin; auto.
      * lra.
      * intros y' [<-|Hy']; auto. lra.
Qed.

Lemma fold_max_spec (rest : list R) :
  forall x, let m := fold_left (fun m y => if Rltb m y then y else m) rest x in
  (m = x \/ In m rest) /\ x <= m /\ forall y, In y rest -> y <= m.
Proof.
  induction rest as [|y rest IH]; intros x; simpl.
  - repeat split; auto; try lra. intros ? [].
  - destruct (Rltb x y) eqn:Hlt;
      [apply Rltb_lt in Hlt | apply Rltb_ge in Hlt];
      match goal with
      | |- context [fold_left ?f rest ?a] =>
          destruct (IH a) as (Hin & Hle & Hall)
      end; simpl in Hin, Hle, Hall.
    + repeat split.
      * destruct Hin; auto.
      * lra.
      * intros y' [<-|Hy']; auto.
    + repeat split.
      * destruct Hin; auto.
      * lra.
      * intros y' [<-|Hy']; auto. lra.
Qed.

Lemma np_min_minimum (a : list R) (m : R) :
  np_min a = Some m -> minimum a m.
Proof.
  destruct a as [|x rest]; simpl; [discriminate|].
  intros H; injection H as <-.
  destruct (fold_min_spec rest x) as (Hin & Hle & Hall).
  split.
  - destruct Hin as [->|Hin]; [left; reflexivity | right; exact Hin].
  - intros p [<-|Hp]; auto.
Qed.

Lemma np_max_maximum (a : list R) (m : R) :
  np_max a = Some m -> maximum a m.
Proof.
  destruct a as [|x rest]; simpl; [discriminate|].
  intros H; injection H as <-.
  destruct (fold_max_spec rest x) as (Hin & Hle & Hall).
  split.
  - destruct Hin as [->|Hin]; [left; reflexivity | right; exact Hin].
  - intros p [<-|Hp]; auto.
Qed.

Lemma np_min_None (a : list R) : np_min a = None <-> a = [].
Proof. destruct a; simpl; split; congruence. Qed.

Lemma np_max_None (a : list R) : np_max a = None <-> a = [].
Proof. destruct a; simpl; split; congruence. Qed.

Lemma filter_nil_iff {X} (f : X -> bool) (l : list X) :
  filter f l = [] <-> forall x, In x l -> f x = false.
Proof.
  induction l as [|y l IH]; simpl.
  - split; auto. intros _ ? [].
  - destruct (f y) eqn:Hy; split.
    + discriminate.
    + intros H. specialize (H y (or_introl eq_refl)). congruence.
    + intros H x [<-|Hx]; auto. apply IH; auto.
    + intros H. apply IH. auto.
Qed.

(** The two reductions of [_find_bounds]. *)
Lemma above_least_gt (possible : list R) (v above : R) :
  np_min (filter (fun p => ltb v p) possible) = Some above ->
  least_gt possible v above.
Proof.
  intros H. apply np_min_minimum in H. destruct H as (Hin & Hmin).
  apply filter_In in Hin. destruct Hin as (Hin & Hlt). apply Rltb_lt in Hlt.
  repeat split; auto.
  intros p Hp Hvp. apply Hmin. apply filter_In. split; auto.
  apply Rltb_lt; exact Hvp.
Qed.

Lemma below_greatest_le (possible : list R) (v below : R) :
  np_max (filter (fun p => leb p v) possible) = Some below ->
  greatest_le possible v below.
Proof.
  intros H. apply np_max_maximum in H. destruct H as (Hin & Hmax).
  apply filter_In in Hin. destruct Hin as (Hin & Hle). apply Rleb_le in Hle.
  repeat split; auto.
  intros p Hp Hpv. apply Hmax. apply filter_In. split; auto.
  apply Rleb_le; exact Hpv.
Qed.

Lemma above_None (possible : list R) (v : R) :
  np_min (filter (fun p => ltb v p) possible) = None <->
  forall p, In p possible -> p <= v.
Proof.
  rewrite np_min_None, filter_nil_iff. split; intros H p Hp.
  - apply Rltb_ge. auto.
  - apply Rltb_ge. auto.
Qed.

Lemma below_None (possible : list R) (v : R) :
  np_max (filter (fun p => leb p v) possible) = None <->
  forall p, In p possible -> v < p.
Proof.
  rewrite np_max_None, filter_nil_iff. split; intros H p Hp.
  - apply Rleb_gt. auto.
  - apply Rleb_gt. auto.
Qed.

(** Runs the code on literal reals: evaluates everything but the arithmetic
    of [R], and decides the comparisons met on the way. *)
Ltac Rrun :=
  repeat (progress
    (cbv -[Reqb Rltb Rleb Rplus Rminus Rmult Rdiv Rinv Ropp Rabs ln IZR];
     Rdecide)).

(** ** [_find_bounds] over the real numbers *)

Section FindBounds.
Variable self : PHOENIXLibrary R.
Variable v : R.
Variable key : Key.
Variable inputs : list (Key * R).
Local Abbreviation possible := (metadata self key).

Lemma find_bounds_present :
  In v possible -> _find_bounds self v key inputs = Ok [v].
Proof.
  intros Hin. unfold _find_bounds. cbv zeta.
  rewrite (proj2 (contains_In _ _) Hin). reflexivity.
Qed.

Lemma find_bounds_between :
  ~ In v possible ->
  (exists p, In p possible /\ p <= v) ->
  (exists q, In q possible /\ v < q) ->
  exists below above,
    _find_bounds self v key inputs = Ok [below; above]
    /\ greatest_le possible v below /\ least_gt possible v above.
Proof.
  intros Hnot (p & Hp & Hpv) (q & Hq & Hvq). unfold _find_bounds.
  cbv zeta.
  rewrite (proj2 (contains_not_In _ _) Hnot).
  destruct (np_min (filter (fun p => ltb v p) (metadata self key)))
    as [above|] eqn:Ha.
  - destruct (np_max (filter (fun p => leb p v) (metadata self key)))
      as [below|] eqn:Hb.
    + exists below, above. split; [reflexivity|]. split.
      * apply below_greatest_le. exact Hb.
      * apply above_least_gt. exact Ha.
    + exfalso. pose proof (proj1 (below_None _ _) Hb p Hp). lra.
  - exfalso. pose proof (proj1 (above_None _ _) Ha q Hq). lra.
Qed.

Lemma find_bounds_inv (b : list R) :
  _find_bounds self v key inputs = Ok b ->
  (b = [v] /\ In v possible)
  \/ (exists below above,
        b = [below; above] /\ ~ In v possible
        /\ greatest_le possible v below /\ least_gt possible v above).
Proof.
  unfold _find_bounds. cbv zeta.
  destruct (contains (metadata self key) v) eqn:Hc.
  - intros H; injection H as <-. left. split; auto. apply contains_In; exact Hc.
  - destruct (np_min (filter (fun p => ltb v p) (metadata self key)))
      as [above|] eqn:Ha;
    destruct (np_max (filter (fun p => leb p v) (metadata self key)))
      as [below|] eqn:Hb;
    try (destruct (np_min (metadata self key)), (np_max (metadata self key));
         discriminate).
    intros H; injection H as <-. right. exists below, above.
    repeat split; try (apply contains_not_In; exact Hc);
      try (apply (below_greatest_le _ _ _ Hb)); apply (above_least_gt _ _ _ Ha).
Qed.

Lemma find_bounds_outside :
  possible <> [] ->
  (forall p, In p possible -> v < p) \/ (forall p, In p possible -> p < v) ->
  exists lowest highest,
    minimum possible lowest /\ maximum possible highest /\
    _find_bounds self v key inputs
    = Raise (ValueError (OutsideLimits inputs lowest key highest)).
Proof.
  intros Hne Hout. unfold _find_bounds. cbv zeta.
  assert (Hnot : ~ In v (metadata self key)).
  { intros Hin. destruct Hout as [H|H]; specialize (H v Hin); lra. }
  rewrite (proj2 (contains_not_In _ _) Hnot).
  destruct (np_min (metadata self key)) as [lowest|] eqn:Hlo;
    [|apply np_min_None in Hlo; contradiction].
  destruct (np_max (metadata self key)) as [highest|] eqn:Hhi;
    [|apply np_max_None in Hhi; contradiction].
  exists lowest, highest.
  split; [apply np_min_minimum; exact Hlo|].
  split; [apply np_max_maximum; exact Hhi|].
  destruct Hout as [Hlow|Hhigh].
  - rewrite (proj2 (below_None (metadata self key) v)) by exact Hlow.
    destruct (np_min (filter _ (metadata self key))); reflexivity.
  - rewrite (proj2 (above_None (metadata self key) v))
      by (intros p Hp; specialize (Hhigh p Hp); lra).
    reflexivity.
Qed.

End FindBounds.

(** C2. For a value present in the axis array, [_find_bounds] returns the
    degenerate bound [[value]] (whatever else the array holds); for a value
    that is absent and has an axis element on either side, it returns the
    pair [(below, above)] of the greatest element [<= value] and the least
    element [> value], so that [below <= value <= above]. *)
Theorem find_bounds_exact_or_enclosing
    (self : PHOENIXLibrary R) (v : R) (key : Key) (inputs : list (Key * R)) :
  (In v (metadata self key) -> _find_bounds self v key inputs = Ok [v])
  /\ (~ In v (metadata self key) ->
      (exists p, In p (metadata self key) /\ p <= v) ->
      (exists q, In q (metadata self key) /\ v < q) ->
      exists below above,
        _find_bounds self v key inputs = Ok [below; above]
        /\ greatest_le (metadata self key) v below
        /\ least_gt (metadata self key) v above
        /\ below <= v <= above).
Proof.
  split.
  - apply find_bounds_present.
  - intros Hnot Hb Ha.
    destruct (find_bounds_between self v key inputs Hnot Hb Ha)
      as (below & above & Heq & Hbelow & Habove).
    exists below, above.
    split; [exact Heq|]. split; [exact Hbelow|]. split; [exact Habove|].
    destruct Hbelow as (_ & H1 & _), Habove as (_ & H2 & _). lra.
Qed.

(** C6. For a value below every element, or above every element, of a
    non-empty axis array, [_find_bounds] raises [ValueError]; its message
    carries the axis key, the minimum and the maximum of the array, and the
    [inputs] dictionary, in which the caller recorded the requested value
    under that key. *)
Theorem find_bounds_out_of_limits
    (self : PHOENIXLibrary R) (v : R) (key : Key) (inputs : list (Key * R)) :
  metadata self key <> [] ->
  (forall p, In p (metadata self key) -> v < p)
  \/ (forall p, In p (metadata self key) -> p < v) ->
  inputs_get inputs key = Some v ->
  exists m lowest highest,
    _find_bounds self v key inputs = Raise (ValueError m)
    /\ minimum (metadata self key) lowest
    /\ maximum (metadata self key) highest
    /\ named_axis m = Some key
    /\ named_request m = Some v
    /\ named_limits m = Some (lowest, highest).
Proof.
  intros Hne Hout Hin.
  destruct (find_bounds_outside self v key inputs Hne Hout)
    as (lowest & highest & Hlo & Hhi & Heq).
  exists (OutsideLimits inputs lowest key highest), lowest, highest.
  split; [exact Heq|]. split; [exact Hlo|]. split; [exact Hhi|].
  simpl. auto.
Qed.

(** [get_spectrum] records each requested value under its key. *)
Lemma make_inputs_get {A : Type} (T g z : A) (key : Key) :
  inputs_get (make_inputs T g z) key = Some (coordinate key (T, g, z)).
Proof. destruct key; reflexivity. Qed.

(** ** The example grids, evaluated *)

Lemma example_axes (k : Key) :
  metadata example_grid k
  = match k with
    | Temperature => [3000; 3500]
    | Logg => [4.5; 5]
    | Metallicity => [0]
    end.
Proof. destruct k; Rrun; reflexivity. Qed.

Lemma sparse_axes (k : Key) :
  metadata sparse_grid k
  = match k with
    | Temperature => [3000; 3500]
    | Logg => [4.5; 5]
    | Metallicity => [0]
    end.
Proof. destruct k; Rrun; reflexivity. Qed.

Lemma find_bounds_exact_or_enclosing_witness :
  _find_bounds example_grid 3500 Temperature [] = Ok [3500]
  /\ exists below above,
       _find_bounds example_grid 3250 Temperature [] = Ok [below; above]
       /\ greatest_le [3000; 3500] 3250 below
       /\ least_gt [3000; 3500] 3250 above
       /\ below <= 3250 <= above.
Proof.
  split.
  - apply (proj1 (find_bounds_exact_or_enclosing
                    example_grid 3500 Temperature [])).
    rewrite example_axes. simpl. auto.
  - rewrite <- (example_axes Temperature).
    apply (proj2 (find_bounds_exact_or_enclosing
                    example_grid 3250 Temperature [])).
    + rewrite example_axes. simpl. intros [H|[H|[]]]; lra.
    + exists 3000. rewrite example_axes. simpl. split; [auto | lra].
    + exists 3500. rewrite example_axes. simpl. split; [auto | lra].
Defined.

Lemma find_bounds_out_of_limits_witness :
  exists m,
    _find_bounds example_grid 2000 Temperature (make_inputs 2000 5 0)
    = Raise (ValueError m)
    /\ named_axis m = Some Temperature
    /\ named_request m = Some 2000
    /\ exists lowest highest,
         named_limits m = Some (lowest, highest)
         /\ minimum [3000; 3500] lowest /\ maximum [3000; 3500] highest.
Proof.
  destruct (find_bounds_out_of_limits
              example_grid 2000 Temperature (make_inputs 2000 5 0))
    as (m & lowest & highest & Heq & Hlo & Hhi & Hax & Hreq & Hlim).
  - rewrite example_axes. discriminate.
  - left. rewrite example_axes. simpl. intros p [<-|[<-|[]]]; lra.
  - reflexivity.
  - rewrite example_axes in Hlo, Hhi.
    exists m. split; [exact Heq|]. split; [exact Hax|]. split; [exact Hreq|].
    exists lowest, highest. auto.
Defined.

(** The same run, computed: the limits named are 3000 and 3500. *)
Example find_bounds_below_range :
  _find_bounds example_grid 2000 Temperature (make_inputs 2000 5 0)
  = Raise (ValueError
             (OutsideLimits (make_inputs 2000 5 0) 3000 Temperature 3500)).
Proof. Rrun. reflexivity. Qed.

Example find_bounds_above_range :
  _find_bounds example_grid 5.5 Logg (make_inputs 3000 5.5 0)
  = Raise (ValueError (OutsideLimits (make_inputs 3000 5.5 0) 4.5 Logg 5)).
Proof. Rrun. reflexivity. Qed.

(** ** [get_spectrum] on grid points and on sparse grids *)

Section Lookups.
Context {A : Type} {num : Num A} {lg : Log A}.

Lemma find_bounds_contained (self : PHOENIXLibrary A) v key inputs :
  contains (metadata self key) v = true ->
  _find_bounds self v key inputs = Ok [v].
Proof. intros H. unfold _find_bounds. cbv zeta. rewrite H. reflexivity. Qed.

(** C1. When the queried triple is a key of [models], [get_spectrum] returns
    the spectrum stored under that key as it is, with the wavelength array of
    the grid: no weight is computed or applied. The grid is assumed to obey
    its data-model invariant [indexed]. *)
Theorem get_spectrum_exact_match
    (self : PHOENIXLibrary A) (temperature logg metallicity : A) (s : list A) :
  indexed self ->
  models_get (models self) (temperature, logg, metallicity) = Some s ->
  get_spectrum self temperature logg metallicity
  = Ok (wavelength self, mkQuantity s (metadata_spectrum_unit self)).
Proof.
  intros Hidx Hs. unfold get_spectrum. cbv zeta.
  rewrite (find_bounds_contained self temperature Temperature)
    by exact (Hidx _ _ Hs Temperature).
  rewrite (find_bounds_contained self logg Logg) by exact (Hidx _ _ Hs Logg).
  rewrite (find_bounds_contained self metallicity Metallicity)
    by exact (Hidx _ _ Hs Metallicity).
  cbn. unfold models_getitem. rewrite Hs. reflexivity.
Qed.

(** C9. When the three axes are in range, at least one of them is not an
    exact match, and some lattice key built from the bounds is absent from
    [models], [get_spectrum] raises the [KeyError] of an absent lattice key. *)
Theorem get_spectrum_missing_key
    (self : PHOENIXLibrary A) (temperature logg metallicity : A)
    (bT bG bZ : list A) :
  let inputs := make_inputs temperature logg metallicity in
  _find_bounds self temperature Temperature inputs = Ok bT ->
  _find_bounds self logg Logg inputs = Ok bG ->
  _find_bounds self metallicity Metallicity inputs = Ok bZ ->
  (List.length bT * List.length bG * List.length bZ <> 1)%nat ->
  (exists k, In k (lattice_keys bT bG bZ) /\ models_get (models self) k = None) ->
  exists k,
    In k (lattice_keys bT bG bZ)
    /\ models_get (models self) k = None
    /\ get_spectrum self temperature logg metallicity = Raise (KeyError k).
Proof.
  intros inputs HT HG HZ HN (k0 & Hin0 & Hnone0).
  destruct (weights_and_spectra_spec self temperature logg metallicity bT bG bZ
              (find_bounds_shaped _ _ _ _ _ HT)
              (find_bounds_shaped _ _ _ _ _ HG)
              (find_bounds_shaped _ _ _ _ _ HZ))
    as (wT & wG & wZ & _ & _ & _ & Hws).
  destruct (lookup_all self (lattice_keys bT bG bZ)) as [specs|e] eqn:Hl.
  - exfalso. exact (lookup_all_ok self _ _ Hl k0 Hin0 Hnone0).
  - destruct (lookup_all_raise self _ _ Hl) as (k & Hin & Hnone & ->).
    exists k. split; [exact Hin|]. split; [exact Hnone|].
    unfold get_spectrum. fold inputs. cbv zeta. rewrite HT, HG, HZ. cbn [bind].
    apply Nat.eqb_neq in HN. rewrite HN. rewrite Hws. reflexivity.
Qed.

End Lookups.

(** A grid whose axis arrays come from its keys, as [_create_grid] builds
    them, obeys the invariant. *)
Lemma insert_unique_In (x y : R) (sorted : list R) :
  In y (insert_unique x sorted) <-> y = x \/ In y sorted.
Proof.
  induction sorted as [|h rest IH]; simpl.
  - intuition.
  - destruct (Reqb x h) eqn:Heq.
    + apply Reqb_eq in Heq. subst. simpl. intuition.
    + destruct (Rltb x h); simpl; [intuition|]. rewrite IH. intuition.
Qed.

Lemma np_unique_In (y : R) (a : list R) : In y (np_unique a) <-> In y a.
Proof.
  induction a as [|x a IH]; simpl; [reflexivity|].
  rewrite insert_unique_In, IH. intuition.
Qed.

Lemma key_eqb_eq (k1 k2 : R * R * R) : key_eqb k1 k2 = true <-> k1 = k2.
Proof.
  destruct k1 as [[t1 g1] z1], k2 as [[t2 g2] z2]. simpl.
  rewrite !andb_true_iff, !Reqb_eq. split.
  - intros [[-> ->] ->]. reflexivity.
  - intros H; injection H; auto.
Qed.

Lemma models_get_In (d : list ((R * R * R) * list R)) key s :
  models_get d key = Some s -> In (key, s) d.
Proof.
  induction d as [|[k v] d IH]; simpl; [discriminate|].
  destruct (key_eqb k key) eqn:Hk.
  - apply key_eqb_eq in Hk. intros H; injection H as <-. subst. auto.
  - auto.
Qed.

Lemma created_grid_indexed (d : list ((R * R * R) * list R)) w wu su :
  indexed (created_grid d w wu su).
Proof.
  intros key s Hs k. simpl in *. apply contains_In.
  unfold axis_of_models. apply np_unique_In.
  apply models_get_In in Hs.
  change (coordinate k key) with ((fun kv => coordinate k (fst kv)) (key, s)).
  apply in_map. exact Hs.
Qed.

Lemma get_spectrum_exact_match_witness :
  get_spectrum example_grid 3000 5 0
  = Ok (mkQuantity [1; 2; 3] "micron", mkQuantity [4; 5; 6] "ph / (m2 nm s)").
Proof.
  apply (get_spectrum_exact_match example_grid 3000 5 0 [4; 5; 6]).
  - apply created_grid_indexed.
  - Rrun. reflexivity.
Defined.

Lemma get_spectrum_missing_key_witness :
  exists k,
    In k (lattice_keys [3000; 3500] [4.5; 5] [0])
    /\ models_get (models sparse_grid) k = None
    /\ get_spectrum sparse_grid 3250 4.75 0 = Raise (KeyError k).
Proof.
  apply (get_spectrum_missing_key sparse_grid 3250 4.75 0).
  - Rrun. reflexivity.
  - Rrun. reflexivity.
  - Rrun. reflexivity.
  - simpl. discriminate.
  - exists (3500, 5, 0). split.
    + simpl. auto.
    + Rrun. reflexivity.
Defined.

(** The same query, computed: the absent key is the last one visited. *)
Example get_spectrum_sparse :
  get_spectrum sparse_grid 3250 4.75 0 = Raise (KeyError (3500, 5, 0)).
Proof. Rrun. reflexivity. Qed.

(** ** [_find_smallest_R] *)

(** The first index at which the mask holds, if any. *)
Lemma flatnonzero_from_first {X} (f : X -> bool) (l : list X) :
  forall i,
  (flatnonzero_from i (map f l) = [] /\ forall a, In a l -> f a = false)
  \/ (exists pre r post rest,
        l = pre ++ r :: post
        /\ (forall a, In a pre -> f a = false)
        /\ f r = true
        /\ flatnonzero_from i (map f l) = (i + List.length pre)%nat :: rest).
Proof.
  induction l as [|x l IH]; intros i; simpl.
  - left. split; auto. intros ? [].
  - destruct (f x) eqn:Hx.
    + right. exists [], x, l, (flatnonzero_from (S i) (map f l)).
      simpl. rewrite Nat.add_0_r. repeat split; auto; intros ? [].
    + destruct (IH (S i)) as [[Hnil Hall] | (pre & r & post & rest & -> & Hpre & Hr & Heq)].
      * left. split; auto. intros a [<-|Ha]; auto.
      * right. exists (x :: pre), r, post, rest. simpl.
        repeat split; auto.
        -- intros a [<-|Ha]; auto.
        -- rewrite Heq. f_equal. lia.
Qed.

Lemma sorted_after (pre post : list Z) (r : Z) :
  Sorted Z.le (pre ++ r :: post) -> forall a, In a post -> (r <= a)%Z.
Proof.
  intros Hs. apply Sorted_StronglySorted in Hs;
    [|intros x y z Hxy Hyz; lia].
  induction pre as [|p pre IH]; simpl in Hs.
  - apply StronglySorted_inv in Hs. destruct Hs as [_ Hall].
    intros a Ha. rewrite Forall_forall in Hall. auto.
  - apply StronglySorted_inv in Hs. destruct Hs as [Hs _]. auto.
Qed.

Lemma np_max_Z_spec (a : list Z) :
  a <> [] -> In (np_max_Z a) a /\ forall x, In x a -> (x <= np_max_Z a)%Z.
Proof.
  assert (Hfold : forall l m,
            let r := fold_left Z.max l m in
            (r = m \/ In r l) /\ (m <= r)%Z /\ forall x, In x l -> (x <= r)%Z).
  { induction l as [|y l IH]; intros m; simpl.
    - repeat split; auto; try lia; intros ? [].
    - destruct (IH (Z.max m y)) as (Hin & Hle & Hall). repeat split.
      + destruct Hin as [Hin|Hin]; [|right; right; exact Hin].
        rewrite Hin.
        destruct (Z.max_spec m y) as [[_ Hm]|[_ Hm]]; rewrite Hm;
          [right; left; reflexivity | left; reflexivity].
      + lia.
      + intros x [<-|Hx]; auto. lia. }
  destruct a as [|h a]; [congruence|]. intros _.
  unfold np_max_Z. simpl hd.
  destruct (Hfold (h :: a) h) as (Hin & Hle & Hall).
  split; auto. destruct Hin as [->|Hin]; simpl; auto.
Qed.

(** C7. On an ascending list of resolutions, a request that is at most the
    maximum is answered, without a warning, by the smallest listed resolution
    that is at least the request. *)
Theorem find_smallest_R_sufficient (available : list Z) (R : R) :
  Sorted Z.le available ->
  available <> [] ->
  R <= IZR (np_max_Z available) ->
  exists r,
    _find_smallest_R available R = ([], Ok r)
    /\ In r available
    /\ R <= IZR r
    /\ forall a, In a available -> R <= IZR a -> (r <= a)%Z.
Proof.
  intros Hsorted Hne Hmax. unfold _find_smallest_R.
  rewrite <- (map_map of_Z (fun a => leb R a)), map_map.
  destruct (flatnonzero_from_first (fun a => leb R (of_Z a)) available 0%nat)
    as [[_ Hall] | (pre & r & post & rest & Heq & Hpre & Hr & Hflat)].
  - exfalso. destruct (np_max_Z_spec available Hne) as [Hin _].
    specialize (Hall _ Hin). apply Rleb_gt in Hall.
    change (@of_Z _ R_Num) with IZR in Hall. lra.
  - unfold flatnonzero. rewrite Hflat. exists r.
    apply Rleb_le in Hr. change (@of_Z _ R_Num) with IZR in Hr.
    subst available. repeat split.
    + unfold getitem. simpl. rewrite nth_error_app2 by lia.
      rewrite Nat.sub_diag. reflexivity.
    + apply in_or_app. right. left. reflexivity.
    + exact Hr.
    + intros a Ha HRa. apply in_app_or in Ha. destruct Ha as [Ha|[<-|Ha]].
      * specialize (Hpre _ Ha). apply Rleb_gt in Hpre.
        change (@of_Z _ R_Num) with IZR in Hpre. lra.
      * lia.
      * exact (sorted_after pre post r Hsorted a Ha).
Qed.

Lemma available_resolutions_sorted : Sorted Z.le _available_resolutions.
Proof.
  unfold _available_resolutions.
  repeat (constructor; try (cbv; discriminate)).
Qed.

Lemma find_smallest_R_sufficient_witness :
  exists r,
    _find_smallest_R _available_resolutions 450 = ([], Ok r)
    /\ In r _available_resolutions
    /\ 450 <= IZR r
    /\ forall a, In a _available_resolutions -> 450 <= IZR a -> (r <= a)%Z.
Proof.
  apply (find_smallest_R_sufficient _available_resolutions 450).
  - exact available_resolutions_sorted.
  - discriminate.
  - replace (np_max_Z _available_resolutions) with 100000%Z by reflexivity.
    lra.
Defined.

(** The two requests of the specification, over the reals and in binary64. *)
Example find_smallest_R_450 :
  _find_smallest_R _available_resolutions 450 = ([], Ok 1000%Z).
Proof. Rrun. reflexivity. Qed.

Example find_smallest_R_100000 :
  _find_smallest_R _available_resolutions 100000 = ([], Ok 100000%Z).
Proof. Rrun. reflexivity. Qed.

Example binary64_find_smallest_R_450 :
  _find_smallest_R _available_resolutions 450%float = ([], Ok 1000%Z).
Proof. vm_compute. reflexivity. Qed.

(** Above every listed resolution the mask is empty, indexing it raises
    [IndexError], and neither the warning nor the fallback to the maximum is
    reached. *)
Lemma find_smallest_R_too_high (available : list Z) (R : R) :
  (forall a, In a available -> IZR a < R) ->
  _find_smallest_R available R = ([], Raise IndexError).
Proof.
  intros Hall. unfold _find_smallest_R.
  rewrite <- (map_map of_Z (fun a => leb R a)), map_map.
  destruct (flatnonzero_from_first (fun a => leb R (of_Z a)) available 0%nat)
    as [[Hnil _] | (pre & r & post & rest & Heq & _ & Hr & _)].
  - unfold flatnonzero. rewrite Hnil. reflexivity.
  - exfalso. apply Rleb_le in Hr.
    assert (Hin : In r available) by (subst; apply in_or_app; right; left; auto).
    specialize (Hall _ Hin). change (@of_Z _ R_Num) with IZR in Hr. lra.
Qed.

(** C8 (the code at the failing request). A request of 200000, above the
    largest grid resolution 100000, ends in [IndexError]; no warning is
    issued and no resolution is returned. *)
Theorem find_smallest_R_above_maximum :
  _find_smallest_R _available_resolutions 200000 = ([], Raise IndexError).
Proof.
  apply find_smallest_R_too_high.
  unfold _available_resolutions. simpl.
  intros a H. repeat (destruct H as [<-|H]; [lra|]). contradiction.
Qed.

Example binary64_find_smallest_R_too_high :
  _find_smallest_R _available_resolutions 200000%float = ([], Raise IndexError).
Proof. vm_compute. reflexivity. Qed.

(** ** [_get_interpolation_weights] *)

(** C5 (amended). A single-value bound gets the single weight 1, and a bound
    [(below, above)] gets the weights [(above - value) / (above - below)] and
    [(value - below) / (above - below)], in whatever arithmetic the code runs;
    over the real numbers, where the arithmetic is exact, the two weights of
    a bound with [below < above] sum to exactly 1. *)
Theorem interpolation_weights_sum_exact :
  (forall (A : Type) (num : Num A) (v x below above : A),
      _get_interpolation_weights v [x] = Some [of_Z 1]
      /\ _get_interpolation_weights v [below; above]
         = Some [div (sub above v) (sub above below);
                 div (sub v below) (sub above below)])
  /\ (forall v below above : R,
      below < above ->
      exists weight_below weight_above,
        _get_interpolation_weights v [below; above]
        = Some [weight_below; weight_above]
        /\ weight_below = (above - v) / (above - below)
        /\ weight_above = (v - below) / (above - below)
        /\ weight_below + weight_above = 1).
Proof.
  split.
  - intros A num v x below above. split; reflexivity.
  - intros v below above Hlt.
    exists ((above - v) / (above - below)), ((v - below) / (above - below)).
    repeat split. field. lra.
Qed.

Lemma interpolation_weights_sum_exact_witness :
  exists weight_below weight_above,
    _get_interpolation_weights 3250 [3000; 3500]
    = Some [weight_below; weight_above]
    /\ weight_below = (3500 - 3250) / (3500 - 3000)
    /\ weight_above = (3250 - 3000) / (3500 - 3000)
    /\ weight_below + weight_above = 1.
Proof.
  apply (proj2 interpolation_weights_sum_exact 3250 3000 3500). lra.
Defined.

Set Warnings "-inexact-float".

(** C5 as stated fails in binary64, the arithmetic of [float] and
    [np.float64]: for the value 0.2 between the bounds 0.0 and 0.9 the two
    weights are 0.7777777777777777 and 0.22222222222222224, and their sum is
    0.9999999999999999, not 1. *)
Lemma interpolation_weights_sum_binary64 :
  PrimFloat.ltb 0 0.9 = true
  /\ _get_interpolation_weights 0.2%float [0%float; 0.9%float]
     = Some [0.7777777777777777%float; 0.22222222222222224%float]
  /\ (0.7777777777777777 + 0.22222222222222224)%float
     = 0.9999999999999999%float
  /\ PrimFloat.eqb (0.7777777777777777 + 0.22222222222222224) 1 = false.
Proof. vm_compute. repeat split; reflexivity. Qed.

Set Warnings "+inexact-float".

(** ** Sums of weights over the real numbers *)

Lemma fold_left_Rplus_acc (l : list R) :
  forall a, fold_left Rplus l a = a + fold_left Rplus l 0.
Proof.
  induction l as [|x l IH]; intros a; simpl.
  - lra.
  - rewrite IH, (IH (0 + x)). lra.
Qed.

Lemma np_sum_nil : np_sum (@nil R) = 0.
Proof. reflexivity. Qed.

Lemma np_sum_cons (x : R) (l : list R) : np_sum (x :: l) = x + np_sum l.
Proof.
  unfold np_sum. simpl. rewrite fold_left_Rplus_acc. lra.
Qed.

Lemma np_sum_app (l1 l2 : list R) : np_sum (l1 ++ l2) = np_sum l1 + np_sum l2.
Proof.
  induction l1 as [|x l1 IH]; simpl.
  - rewrite np_sum_nil. lra.
  - rewrite !np_sum_cons, IH. lra.
Qed.

Lemma np_sum_scaled (c : R) (l : list R) :
  np_sum (map (fun x => c * x) l) = c * np_sum l.
Proof.
  induction l as [|x l IH]; simpl.
  - rewrite np_sum_nil. lra.
  - rewrite !np_sum_cons, IH. lra.
Qed.

Lemma np_sum_divided (s : R) (l : list R) :
  np_sum (map (fun w => w / s) l) = np_sum l / s.
Proof.
  induction l as [|x l IH]; simpl.
  - rewrite np_sum_nil. unfold Rdiv. lra.
  - rewrite !np_sum_cons, IH. unfold Rdiv. lra.
Qed.

(** The combined weights sum to the product of the per-axis sums. *)
Lemma np_sum_combined (wT wG wZ : list R) :
  np_sum (combined wT wG wZ) = np_sum wT * np_sum wG * np_sum wZ.
Proof.
  change (np_sum (flat_map (fun wt =>
                    flat_map (fun wg => map (fun wz => wt * wg * wz) wZ) wG) wT)
          = np_sum wT * np_sum wG * np_sum wZ).
  induction wT as [|wt wT IHT]; cbn [flat_map].
  - rewrite np_sum_nil. lra.
  - rewrite np_sum_app, np_sum_cons, IHT.
    assert (Hinner :
      np_sum (flat_map (fun wg => map (fun wz => wt * wg * wz) wZ) wG)
      = wt * np_sum wG * np_sum wZ).
    { clear IHT. induction wG as [|wg wG IHG]; cbn [flat_map].
      - rewrite np_sum_nil. lra.
      - rewrite np_sum_app, np_sum_cons, IHG, np_sum_scaled. lra. }
    rewrite Hinner. lra.
Qed.

Lemma combined_length {A : Type} {num : Num A} (wT wG wZ : list A) :
  List.length (combined wT wG wZ)
  = (List.length wT * List.length wG * List.length wZ)%nat.
Proof.
  unfold combined.
  induction wT as [|wt wT IHT]; simpl; [reflexivity|].
  rewrite length_app, IHT.
  assert (Hinner :
    List.length (flat_map (fun wg => map (fun wz => mul (mul wt wg) wz) wZ) wG)
    = (List.length wG * List.length wZ)%nat).
  { clear IHT. induction wG as [|wg wG IHG]; simpl; [reflexivity|].
    rewrite length_app, length_map, IHG. reflexivity. }
  rewrite Hinner. lia.
Qed.

(** The per-axis weights of the code are those of the specification. *)
Lemma interpolation_weights_linear (v : R) (b : list R) :
  bound_shaped b ->
  _get_interpolation_weights v b = Some (linear_weights v b).
Proof.
  destruct b as [|b0 [|b1 [|? ?]]]; simpl; try contradiction; reflexivity.
Qed.

Lemma interpolation_weights_log (T : R) (b : list R) :
  bound_shaped b ->
  _get_interpolation_weights (log T) (map log b) = Some (log_weights T b).
Proof.
  destruct b as [|b0 [|b1 [|? ?]]]; simpl; try contradiction; reflexivity.
Qed.

Lemma linear_weights_length (v : R) (b : list R) :
  bound_shaped b -> List.length (linear_weights v b) = List.length b.
Proof.
  destruct b as [|b0 [|b1 [|? ?]]]; simpl; try contradiction; reflexivity.
Qed.

Lemma log_weights_length (T : R) (b : list R) :
  bound_shaped b -> List.length (log_weights T b) = List.length b.
Proof.
  destruct b as [|b0 [|b1 [|? ?]]]; simpl; try contradiction; reflexivity.
Qed.

Lemma bound_shaped_length {A : Type} {num : Num A} (b : list A) :
  bound_shaped b -> (1 <= List.length b <= 2)%nat.
Proof.
  destruct b as [|b0 [|b1 [|? ?]]]; simpl; try contradiction; lia.
Qed.

(** A bound that [_find_bounds] returns strictly encloses a value that is
    not a grid value. *)
Lemma find_bounds_strict (self : PHOENIXLibrary R) v key inputs below above :
  _find_bounds self v key inputs = Ok [below; above] ->
  In below (metadata self key) /\ below < v < above.
Proof.
  intros H. destruct (find_bounds_inv self v key inputs _ H)
    as [[Heq _] | (b & a & Heq & Hnot & (Hin & Hle & _) & (_ & Hlt & _))].
  - discriminate.
  - injection Heq as -> ->. split; [exact Hin|]. split; [|exact Hlt].
    destruct Hle as [Hlt'|Heq']; [exact Hlt'|]. subst. contradiction.
Qed.

Lemma linear_weights_sum (self : PHOENIXLibrary R) v key inputs b :
  _find_bounds self v key inputs = Ok b -> np_sum (linear_weights v b) = 1.
Proof.
  intros H. pose proof (find_bounds_shaped _ _ _ _ _ H) as Hs.
  destruct b as [|b0 [|b1 [|? ?]]]; simpl in Hs; try contradiction.
  - simpl. rewrite np_sum_cons, np_sum_nil. lra.
  - destruct (find_bounds_strict _ _ _ _ _ _ H) as (_ & Hlo & Hhi).
    simpl. rewrite !np_sum_cons, np_sum_nil. field. lra.
Qed.

Lemma log_weights_sum (self : PHOENIXLibrary R) T inputs b :
  (forall t, In t (metadata self Temperature) -> 0 < t) ->
  _find_bounds self T Temperature inputs = Ok b ->
  np_sum (log_weights T b) = 1.
Proof.
  intros Hpos H. pose proof (find_bounds_shaped _ _ _ _ _ H) as Hs.
  destruct b as [|b0 [|b1 [|? ?]]]; simpl in Hs; try contradiction.
  - simpl. rewrite np_sum_cons, np_sum_nil. lra.
  - destruct (find_bounds_strict _ _ _ _ _ _ H) as (Hin & Hlo & Hhi).
    pose proof (Hpos _ Hin) as Hb0.
    assert (ln b0 < ln T) by (apply ln_increasing; lra).
    assert (ln T < ln b1) by (apply ln_increasing; lra).
    simpl. rewrite !np_sum_cons, np_sum_nil. field. lra.
Qed.

(** ** The interpolated branch of [get_spectrum] over the real numbers *)

Lemma weights_and_spectra_inv (self : PHOENIXLibrary R) T g z bT bG bZ
    weights spectra :
  bound_shaped bT -> bound_shaped bG -> bound_shaped bZ ->
  weights_and_spectra self T g z bT bG bZ
    (List.length bT * List.length bG * List.length bZ) = Ok (weights, spectra) ->
  weights = combined (log_weights T bT) (linear_weights g bG) (linear_weights z bZ)
  /\ lookup_all self (lattice_keys bT bG bZ) = Ok spectra.
Proof.
  intros HT HG HZ Hrun.
  destruct (weights_and_spectra_spec self T g z bT bG bZ HT HG HZ)
    as (wT & wG & wZ & HwT & HwG & HwZ & Hws).
  rewrite interpolation_weights_log in HwT by exact HT.
  rewrite interpolation_weights_linear in HwG by exact HG.
  rewrite interpolation_weights_linear in HwZ by exact HZ.
  injection HwT as <-. injection HwG as <-. injection HwZ as <-.
  rewrite Hws in Hrun.
  destruct (lookup_all self (lattice_keys bT bG bZ)) as [specs|e];
    [|discriminate].
  injection Hrun as <- <-. split; reflexivity.
Qed.

(** The combined weights of a query in range, on a grid of positive
    temperatures. *)
Lemma weights_sum_and_count
    (self : PHOENIXLibrary R) (temperature logg metallicity : R)
    (bT bG bZ : list R) (weights : list R) (spectra : list (list R)) :
  let inputs := make_inputs temperature logg metallicity in
  let N := (List.length bT * List.length bG * List.length bZ)%nat in
  (forall t, In t (metadata self Temperature) -> 0 < t) ->
  _find_bounds self temperature Temperature inputs = Ok bT ->
  _find_bounds self logg Logg inputs = Ok bG ->
  _find_bounds self metallicity Metallicity inputs = Ok bZ ->
  weights_and_spectra self temperature logg metallicity bT bG bZ N
  = Ok (weights, spectra) ->
  np_sum weights = 1 /\ List.length weights = N /\ (N <= 8)%nat.
Proof.
  intros inputs N Hpos HT HG HZ Hrun.
  pose proof (find_bounds_shaped _ _ _ _ _ HT) as HsT.
  pose proof (find_bounds_shaped _ _ _ _ _ HG) as HsG.
  pose proof (find_bounds_shaped _ _ _ _ _ HZ) as HsZ.
  destruct (weights_and_spectra_inv self _ _ _ _ _ _ _ _ HsT HsG HsZ Hrun)
    as [-> _].
  split; [|split].
  - rewrite np_sum_combined.
    rewrite (log_weights_sum self temperature inputs bT Hpos HT).
    rewrite (linear_weights_sum self logg Logg inputs bG HG).
    rewrite (linear_weights_sum self metallicity Metallicity inputs bZ HZ).
    lra.
  - rewrite combined_length, log_weights_length, !linear_weights_length by auto.
    reflexivity.
  - pose proof (bound_shaped_length bT HsT) as H1.
    pose proof (bound_shaped_length bG HsG) as H2.
    pose proof (bound_shaped_length bZ HsZ) as H3.
    unfold N.
    assert (H12 : (List.length bT * List.length bG <= 4)%nat) by nia.
    nia.
Qed.

(** C3. For a query in range on the three axes and not exact on all of them,
    on a grid of positive temperatures, the combined weights that the triple
    loop forms, at most 8 of them, sum to 1: exactly so in exact arithmetic,
    hence within the tolerance of [np.isclose]. *)
Theorem combined_weights_sum_to_one
    (self : PHOENIXLibrary R) (temperature logg metallicity : R)
    (bT bG bZ : list R) (weights : list R) (spectra : list (list R)) :
  let inputs := make_inputs temperature logg metallicity in
  let N := (List.length bT * List.length bG * List.length bZ)%nat in
  (forall t, In t (metadata self Temperature) -> 0 < t) ->
  _find_bounds self temperature Temperature inputs = Ok bT ->
  _find_bounds self logg Logg inputs = Ok bG ->
  _find_bounds self metallicity Metallicity inputs = Ok bZ ->
  N <> 1%nat ->
  weights_and_spectra self temperature logg metallicity bT bG bZ N
  = Ok (weights, spectra) ->
  np_sum weights = 1
  /\ np_isclose (np_sum weights) 1 = true
  /\ List.length weights = N
  /\ (N <= 8)%nat.
Proof.
  intros inputs N Hpos HT HG HZ _ Hrun.
  destruct (weights_sum_and_count self temperature logg metallicity bT bG bZ
              weights spectra Hpos HT HG HZ Hrun) as (Hsum & Hlen & HN).
  split; [exact Hsum|]. split; [|split; [exact Hlen | exact HN]].
  rewrite Hsum. unfold np_isclose.
  change (Rleb (Rabs (1 - 1)) (/ 100000000 + / 100000 * Rabs 1) = true).
  apply Rleb_le. rewrite Rminus_diag, Rabs_R0, Rabs_R1. lra.
Qed.

(** C4. The combined weights of an interpolated query are the products of a
    temperature weight computed from [ln] of the query temperature and [ln]
    of its bounding temperatures, and of logg and metallicity weights computed
    from the values themselves. *)
Theorem temperature_weights_in_log_space
    (self : PHOENIXLibrary R) (temperature logg metallicity : R)
    (bT bG bZ : list R) (weights : list R) (spectra : list (list R)) :
  let inputs := make_inputs temperature logg metallicity in
  let N := (List.length bT * List.length bG * List.length bZ)%nat in
  _find_bounds self temperature Temperature inputs = Ok bT ->
  _find_bounds self logg Logg inputs = Ok bG ->
  _find_bounds self metallicity Metallicity inputs = Ok bZ ->
  N <> 1%nat ->
  weights_and_spectra self temperature logg metallicity bT bG bZ N
  = Ok (weights, spectra) ->
  weights = combined (log_weights temperature bT)
                     (linear_weights logg bG)
                     (linear_weights metallicity bZ).
Proof.
  intros inputs N HT HG HZ _ Hrun.
  pose proof (find_bounds_shaped _ _ _ _ _ HT) as HsT.
  pose proof (find_bounds_shaped _ _ _ _ _ HG) as HsG.
  pose proof (find_bounds_shaped _ _ _ _ _ HZ) as HsZ.
  exact (proj1 (weights_and_spectra_inv self _ _ _ _ _ _ _ _ HsT HsG HsZ Hrun)).
Qed.

(** The assertion of line 609, as a condition on the sum. *)
Lemma weight_sum_accepted_iff (s : R) :
  weight_sum_accepted s = true
  <-> (Rabs (s - 1) <= / 100000000 + / 100000 * Rabs 1 \/ s <= 1).
Proof.
  unfold weight_sum_accepted, np_isclose. rewrite orb_true_iff.
  change (leb (abs (sub s (of_Z 1)))
            (add isclose_atol (mul isclose_rtol (abs (of_Z 1)))))
    with (Rleb (Rabs (s - 1)) (/ 100000000 + / 100000 * Rabs 1)).
  change (leb s (of_Z 1)) with (Rleb s 1).
  rewrite !Rleb_le. reflexivity.
Qed.

Lemma weight_sum_rejected_iff (s : R) :
  weight_sum_accepted s = false <-> 1 + (/ 100000000 + / 100000) < s.
Proof.
  split.
  - intros H. destruct (Rlt_dec (1 + (/ 100000000 + / 100000)) s) as [Hlt|Hge];
      [exact Hlt|].
    assert (Hacc : weight_sum_accepted s = true); [|congruence].
    apply weight_sum_accepted_iff. rewrite Rabs_R1.
    destruct (Rle_dec s 1) as [Hle|Hgt]; [right; exact Hle|].
    left. rewrite Rabs_pos_eq by lra. lra.
  - intros Hlt. destruct (weight_sum_accepted s) eqn:Hacc; [|reflexivity].
    apply weight_sum_accepted_iff in Hacc. rewrite Rabs_R1 in Hacc.
    rewrite Rabs_pos_eq in Hacc by lra. lra.
Qed.

(** Lines 608-611 on any weights: the assertion decides between the combined
    spectrum and [AssertionError]. *)
Lemma combine_spectra_accepted_iff (weights : list R) (spectra : list (list R)) :
  combine_spectra weights spectra
  = Ok (np_sum_axis0
          (scale_rows (map (fun w => w / np_sum weights) weights) spectra))
  <-> (Rabs (np_sum weights - 1) <= / 100000000 + / 100000 * Rabs 1
       \/ np_sum weights <= 1).
Proof.
  rewrite <- weight_sum_accepted_iff. unfold combine_spectra. cbv zeta.
  destruct (weight_sum_accepted (np_sum weights)); split; intros H;
    try reflexivity; discriminate.
Qed.

Lemma combine_spectra_rejected_iff (weights : list R) (spectra : list (list R)) :
  combine_spectra weights spectra = Raise AssertionError
  <-> 1 + (/ 100000000 + / 100000) < np_sum weights.
Proof.
  rewrite <- weight_sum_rejected_iff. unfold combine_spectra. cbv zeta.
  destruct (weight_sum_accepted (np_sum weights)); split; intros H;
    try reflexivity; discriminate.
Qed.

(** The weights divided by their sum sum to 1, unless the sum is 0. *)
Lemma applied_weights_sum (weights : list R) :
  np_sum (map (fun w => w / np_sum weights) weights) = 1
  <-> np_sum weights <> 0.
Proof.
  rewrite np_sum_divided. split.
  - intros H Hz. rewrite Hz in H. unfold Rdiv in H. rewrite Rmult_0_l in H. lra.
  - intros Hnz. field. exact Hnz.
Qed.

(** [get_spectrum] from the assertion on, for a query that reaches it. *)
Lemma get_spectrum_from_assertion
    (self : PHOENIXLibrary R) (temperature logg metallicity : R)
    (bT bG bZ : list R) (weights : list R) (spectra : list (list R)) :
  let inputs := make_inputs temperature logg metallicity in
  let N := (List.length bT * List.length bG * List.length bZ)%nat in
  _find_bounds self temperature Temperature inputs = Ok bT ->
  _find_bounds self logg Logg inputs = Ok bG ->
  _find_bounds self metallicity Metallicity inputs = Ok bZ ->
  N <> 1%nat ->
  weights_and_spectra self temperature logg metallicity bT bG bZ N
  = Ok (weights, spectra) ->
  get_spectrum self temperature logg metallicity
  = (spectrum <- combine_spectra weights spectra ;;
     Ok (wavelength self, mkQuantity spectrum (metadata_spectrum_unit self))).
Proof.
  intros inputs N HT HG HZ HN Hrun.
  unfold get_spectrum. fold inputs. cbv zeta. rewrite HT, HG, HZ. cbn [bind].
  fold N. apply Nat.eqb_neq in HN. rewrite HN. rewrite Hrun. reflexivity.
Qed.

(** C10. The assertion of [get_spectrum] on the weight sum passes exactly when
    the sum is within [np.isclose]'s tolerance of 1 or is at most 1, and it
    raises [AssertionError] exactly when the sum exceeds 1 by more than the
    tolerance: so for the boolean test, for lines 608-611 on any weights, and
    for [get_spectrum] on every query that reaches the assertion (in range,
    not exact, every lattice key present). Whenever the assertion passes, the
    weights are divided by their sum before the spectra are combined, and the
    divided weights sum to 1 unless they summed to 0 (which the test lets
    through). On a grid of positive temperatures the sum of a query's weights
    is 1, so the assertion passes and the weights applied sum to 1. *)
Theorem weight_sum_check_then_renormalize :
  (forall s : R,
      weight_sum_accepted s = true
      <-> (Rabs (s - 1) <= / 100000000 + / 100000 * Rabs 1 \/ s <= 1))
  /\ (forall s : R,
      weight_sum_accepted s = false <-> 1 + (/ 100000000 + / 100000) < s)
  /\ (forall (weights : list R) (spectra : list (list R)),
      let applied := map (fun w => w / np_sum weights) weights in
      (combine_spectra weights spectra
       = Ok (np_sum_axis0 (scale_rows applied spectra))
       <-> (Rabs (np_sum weights - 1) <= / 100000000 + / 100000 * Rabs 1
            \/ np_sum weights <= 1))
      /\ (combine_spectra weights spectra = Raise AssertionError
          <-> 1 + (/ 100000000 + / 100000) < np_sum weights)
      /\ (np_sum applied = 1 <-> np_sum weights <> 0))
  /\ (forall (self : PHOENIXLibrary R) (temperature logg metallicity : R)
             (bT bG bZ : list R) (weights : list R) (spectra : list (list R)),
      let inputs := make_inputs temperature logg metallicity in
      let N := (List.length bT * List.length bG * List.length bZ)%nat in
      _find_bounds self temperature Temperature inputs = Ok bT ->
      _find_bounds self logg Logg inputs = Ok bG ->
      _find_bounds self metallicity Metallicity inputs = Ok bZ ->
      N <> 1%nat ->
      weights_and_spectra self temperature logg metallicity bT bG bZ N
      = Ok (weights, spectra) ->
      let applied := map (fun w => w / np_sum weights) weights in
      let combined_spectrum :=
        Ok (wavelength self,
            mkQuantity (np_sum_axis0 (scale_rows applied spectra))
                       (metadata_spectrum_unit self)) in
      (get_spectrum self temperature logg metallicity = combined_spectrum
       <-> (Rabs (np_sum weights - 1) <= / 100000000 + / 100000 * Rabs 1
            \/ np_sum weights <= 1))
      /\ (get_spectrum self temperature logg metallicity = Raise AssertionError
          <-> 1 + (/ 100000000 + / 100000) < np_sum weights)
      /\ ((forall t, In t (metadata self Temperature) -> 0 < t) ->
          weight_sum_accepted (np_sum weights) = true
          /\ np_sum applied = 1
          /\ get_spectrum self temperature logg metallicity = combined_spectrum)).
Proof.
  split; [exact weight_sum_accepted_iff|].
  split; [exact weight_sum_rejected_iff|].
  split.
  { intros weights spectra applied.
    split; [exact (combine_spectra_accepted_iff weights spectra)|].
    split; [exact (combine_spectra_rejected_iff weights spectra)|].
    exact (applied_weights_sum weights). }
  intros self temperature logg metallicity bT bG bZ weights spectra inputs N
    HT HG HZ HN Hrun applied combined_spectrum.
  pose proof (get_spectrum_from_assertion self temperature logg metallicity
                bT bG bZ weights spectra HT HG HZ HN Hrun) as Hget.
  assert (Hpass :
    get_spectrum self temperature logg metallicity = combined_spectrum
    <-> (Rabs (np_sum weights - 1) <= / 100000000 + / 100000 * Rabs 1
         \/ np_sum weights <= 1)).
  { rewrite <- (combine_spectra_accepted_iff weights spectra), Hget.
    unfold combined_spectrum, applied.
    destruct (combine_spectra weights spectra) as [spectrum|e]; cbn [bind];
      split; intros H; try discriminate.
    - injection H as ->. reflexivity.
    - injection H as ->. reflexivity. }
  assert (Hfail :
    get_spectrum self temperature logg metallicity = Raise AssertionError
    <-> 1 + (/ 100000000 + / 100000) < np_sum weights).
  { rewrite <- (combine_spectra_rejected_iff weights spectra), Hget.
    destruct (combine_spectra weights spectra) as [spectrum|e]; cbn [bind];
      split; intros H; try discriminate.
    - injection H as ->. reflexivity.
    - injection H as ->. reflexivity. }
  split; [exact Hpass|]. split; [exact Hfail|].
  intros Hpos.
  destruct (weights_sum_and_count self temperature logg metallicity
              bT bG bZ weights spectra Hpos HT HG HZ Hrun) as (Hsum & _ & _).
  split; [apply weight_sum_accepted_iff; right; lra|].
  split; [apply applied_weights_sum; lra|].
  apply Hpass. right. lra.
Qed.

(** When moreover every lattice key is present, the branch runs to its end. *)
Lemma weights_and_spectra_total (self : PHOENIXLibrary R) T g z bT bG bZ :
  bound_shaped bT -> bound_shaped bG -> bound_shaped bZ ->
  (forall k, In k (lattice_keys bT bG bZ) -> models_get (models self) k <> None) ->
  exists spectra,
    weights_and_spectra self T g z bT bG bZ
      (List.length bT * List.length bG * List.length bZ)
    = Ok (combined (log_weights T bT) (linear_weights g bG) (linear_weights z bZ),
          spectra).
Proof.
  intros HT HG HZ Hall.
  destruct (weights_and_spectra_spec self T g z bT bG bZ HT HG HZ)
    as (wT & wG & wZ & HwT & HwG & HwZ & Hws).
  rewrite interpolation_weights_log in HwT by exact HT.
  rewrite interpolation_weights_linear in HwG by exact HG.
  rewrite interpolation_weights_linear in HwZ by exact HZ.
  injection HwT as <-. injection HwG as <-. injection HwZ as <-.
  destruct (lookup_all_total self _ Hall) as (specs & Hl & _).
  exists specs. rewrite Hws, Hl. reflexivity.
Qed.

(** ** The interpolated branch on the example grid *)

Lemma example_temperatures_positive :
  forall t, In t (metadata example_grid Temperature) -> 0 < t.
Proof.
  intros t Ht. rewrite example_axes in Ht. simpl in Ht.
  destruct Ht as [<-|[<-|[]]]; lra.
Qed.

Lemma combined_weights_sum_to_one_witness :
  exists weights spectra,
    weights_and_spectra example_grid 3250 4.75 0 [3000; 3500] [4.5; 5] [0] 4
    = Ok (weights, spectra)
    /\ np_sum weights = 1
    /\ np_isclose (np_sum weights) 1 = true
    /\ List.length weights = 4%nat
    /\ (4 <= 8)%nat.
Proof.
  destruct (weights_and_spectra example_grid 3250 4.75 0
              [3000; 3500] [4.5; 5] [0] 4) as [[weights spectra]|e] eqn:Hrun.
  - exists weights, spectra. split; [reflexivity|].
    apply (combined_weights_sum_to_one example_grid 3250 4.75 0
             [3000; 3500] [4.5; 5] [0] weights spectra).
    + exact example_temperatures_positive.
    + Rrun. reflexivity.
    + Rrun. reflexivity.
    + Rrun. reflexivity.
    + simpl. discriminate.
    + exact Hrun.
  - exfalso. revert Hrun. Rrun. discriminate.
Defined.

Lemma temperature_weights_in_log_space_witness :
  exists spectra,
    weights_and_spectra example_grid 3250 4.75 0 [3000; 3500] [4.5; 5] [0] 4
    = Ok ([ (ln 3500 - ln 3250) / (ln 3500 - ln 3000)
              * ((5 - 4.75) / (5 - 4.5)) * 1;
            (ln 3500 - ln 3250) / (ln 3500 - ln 3000)
              * ((4.75 - 4.5) / (5 - 4.5)) * 1;
            (ln 3250 - ln 3000) / (ln 3500 - ln 3000)
              * ((5 - 4.75) / (5 - 4.5)) * 1;
            (ln 3250 - ln 3000) / (ln 3500 - ln 3000)
              * ((4.75 - 4.5) / (5 - 4.5)) * 1 ],
          spectra).
Proof.
  destruct (weights_and_spectra example_grid 3250 4.75 0
              [3000; 3500] [4.5; 5] [0] 4) as [[weights spectra]|e] eqn:Hrun.
  - exists spectra.
    rewrite (temperature_weights_in_log_space example_grid 3250 4.75 0
               [3000; 3500] [4.5; 5] [0] weights spectra).
    + reflexivity.
    + Rrun. reflexivity.
    + Rrun. reflexivity.
    + Rrun. reflexivity.
    + simpl. discriminate.
    + exact Hrun.
  - exfalso. revert Hrun. Rrun. discriminate.
Defined.

Lemma weight_sum_check_then_renormalize_witness :
  combine_spectra [1; 1] [[1; 2; 3]; [4; 5; 6]] = Raise AssertionError
  /\ exists weights spectra,
       weight_sum_accepted (np_sum weights) = true
       /\ np_sum (map (fun w => w / np_sum weights) weights) = 1
       /\ get_spectrum example_grid 3250 4.75 0
          = Ok (wavelength example_grid,
                mkQuantity
                  (np_sum_axis0
                     (scale_rows (map (fun w => w / np_sum weights) weights)
                                 spectra))
                  (metadata_spectrum_unit example_grid)).
Proof.
  split.
  - apply (proj1 (proj2 (proj1 (proj2 (proj2 weight_sum_check_then_renormalize))
                           [1; 1] [[1; 2; 3]; [4; 5; 6]]))).
    unfold np_sum. simpl. lra.
  - destruct (weights_and_spectra example_grid 3250 4.75 0
                [3000; 3500] [4.5; 5] [0] 4) as [[weights spectra]|e] eqn:Hrun.
    + exists weights, spectra.
      apply (proj2 (proj2 (proj2 (proj2 (proj2 weight_sum_check_then_renormalize))
                      example_grid 3250 4.75 0 [3000; 3500] [4.5; 5] [0]
                      weights spectra
                      ltac:(Rrun; reflexivity) ltac:(Rrun; reflexivity)
                      ltac:(Rrun; reflexivity) ltac:(simpl; discriminate)
                      Hrun))).
      exact example_temperatures_positive.
    + exfalso. revert Hrun. Rrun. discriminate.
Defined.

(** The assertion at work on lines 608-611: weights summing to 2 are
    refused, weights summing to 0 are let through. *)
Example combine_spectra_refuses_excess :
  combine_spectra [1; 1] [[1; 2; 3]; [4; 5; 6]] = Raise AssertionError.
Proof. apply combine_spectra_rejected_iff. unfold np_sum. simpl. lra. Qed.

Example combine_spectra_accepts_zero_sum :
  exists spectrum, combine_spectra [1; -1] [[1; 2; 3]; [4; 5; 6]] = Ok spectrum.
Proof.
  eexists. apply combine_spectra_accepted_iff. right. unfold np_sum. simpl. lra.
Qed.

(** The sanity scenario of the specification: halfway between 3000 and 3500
    the temperature weights are not one half each, because they are taken in
    log space. *)
Example log_weights_not_halves :
  log_weights 3250 [3000; 3500] <> [1 / 2; 1 / 2].
Proof.
  simpl. intros H. injection H as H _.
  assert (H1 : ln 3000 < ln 3500) by (apply ln_increasing; lra).
  assert (H2 : 2 * ln 3250 = ln 3000 + ln 3500).
  { apply (f_equal (fun x => x * (ln 3500 - ln 3000))) in H.
    unfold Rdiv in H. rewrite Rmult_assoc, Rinv_l in H by lra. lra. }
  assert (H3 : ln (3250 * 3250) = ln (3000 * 3500)).
  { rewrite !ln_mult by lra. lra. }
  apply ln_inv in H3; lra.
Qed.

(** A query on a grid temperature and between two surface gravities: the two
    spectra [[1; 2; 3]] and [[4; 5; 6]] get the weights one half each. *)
Example get_spectrum_between_loggs :
  get_spectrum example_grid 3000 4.75 0
  = Ok (mkQuantity [1; 2; 3] "micron",
        mkQuantity [2.5; 3.5; 4.5] "ph / (m2 nm s)").
Proof.
  Rrun. destruct (Rleb _ _); cbv beta iota; do 3 f_equal;
    repeat (f_equal; try (field; lra)).
Qed.

(** A query outside the grid ends in the [ValueError] of [_find_bounds]. *)
Example get_spectrum_out_of_limits :
  get_spectrum example_grid 2000 5 0
  = Raise (ValueError
             (OutsideLimits (make_inputs 2000 5 0) 3000 Temperature 3500)).
Proof. Rrun. reflexivity. Qed.

(** * Further properties of the code *)

(** ** [_find_bounds] *)

(** X1. [_find_bounds] returns bounds exactly for the values between the least
    and the greatest element of the axis array, both included. *)
Theorem find_bounds_succeeds_iff_within_limits
    (self : PHOENIXLibrary R) (v : R) (key : Key) (inputs : list (Key * R))
    (lowest highest : R) :
  minimum (metadata self key) lowest ->
  maximum (metadata self key) highest ->
  ((exists b, _find_bounds self v key inputs = Ok b) <-> lowest <= v <= highest).
Proof.
  intros [Hlo_in Hlo] [Hhi_in Hhi]. split.
  - intros [b Hb].
    destruct (find_bounds_inv self v key inputs b Hb)
      as [[_ Hin] | (below & above & _ & _ & (Hbin & Hble & _) & (Hain & Hlt & _))].
    + split; auto.
    + pose proof (Hlo _ Hbin). pose proof (Hhi _ Hain). lra.
  - intros [Hl Hh].
    destruct (contains (metadata self key) v) eqn:Hc.
    + exists [v]. apply find_bounds_present. apply contains_In. exact Hc.
    + apply contains_not_In in Hc.
      destruct (find_bounds_between self v key inputs Hc) as (below & above & Heq & _).
      * exists lowest. auto.
      * exists highest. split; [exact Hhi_in|].
        destruct Hh as [Hlt|Heq]; [exact Hlt|]. subst. contradiction.
      * exists [below; above]. exact Heq.
Qed.

Lemma find_bounds_succeeds_iff_within_limits_witness :
  (exists b, _find_bounds example_grid 3250 Temperature [] = Ok b)
  <-> 3000 <= 3250 <= 3500.
Proof.
  apply (find_bounds_succeeds_iff_within_limits
           example_grid 3250 Temperature [] 3000 3500).
  - rewrite example_axes. split; [simpl; auto|].
    intros p [<-|[<-|[]]]; lra.
  - rewrite example_axes. split; [simpl; auto|].
    intros p [<-|[<-|[]]]; lra.
Defined.

(** X2. A pair returned by [_find_bounds] consists of two neighbouring grid
    values that strictly enclose the value: no grid value lies strictly
    between them, and the span [above - below] is positive. *)
Theorem find_bounds_pair_is_adjacent
    (self : PHOENIXLibrary R) (v : R) (key : Key) (inputs : list (Key * R))
    (below above : R) :
  _find_bounds self v key inputs = Ok [below; above] ->
  In below (metadata self key)
  /\ In above (metadata self key)
  /\ below < v < above
  /\ 0 < above - below
  /\ forall p, In p (metadata self key) -> ~ (below < p < above).
Proof.
  intros H.
  destruct (find_bounds_inv self v key inputs _ H)
    as [[Heq _] | (b & a & Heq & Hnot & (Hbin & Hble & Hbmax) & (Hain & Hlt & Hamin))];
    [discriminate|].
  injection Heq as -> ->.
  assert (Hstrict : b < v).
  { destruct Hble as [Hl|He]; [exact Hl|]. subst. contradiction. }
  repeat split; auto; try lra.
  intros p Hp [Hbp Hpa].
  destruct (Rle_dec p v) as [Hle|Hgt].
  - specialize (Hbmax p Hp Hle). lra.
  - assert (Hvp : v < p) by lra. specialize (Hamin p Hp Hvp). lra.
Qed.

Lemma find_bounds_pair_is_adjacent_witness :
  In 4.5 (metadata example_grid Logg)
  /\ In 5 (metadata example_grid Logg)
  /\ 4.5 < 4.75 < 5
  /\ 0 < 5 - 4.5
  /\ forall p, In p (metadata example_grid Logg) -> ~ (4.5 < p < 5).
Proof.
  apply (find_bounds_pair_is_adjacent example_grid 4.75 Logg []).
  Rrun. reflexivity.
Defined.

(** Comparisons with NaN in binary64. *)
Lemma nan_eqb (p : float) : PrimFloat.eqb p nan = false.
Proof.
  rewrite FloatAxioms.eqb_spec. change (Prim2SF nan) with S754_nan.
  unfold SFeqb, SFcompare. destruct (Prim2SF p); reflexivity.
Qed.

Lemma nan_ltb (p : float) : PrimFloat.ltb nan p = false.
Proof.
  rewrite FloatAxioms.ltb_spec. change (Prim2SF nan) with S754_nan.
  reflexivity.
Qed.

Lemma nan_leb (p : float) : PrimFloat.leb p nan = false.
Proof.
  rewrite FloatAxioms.leb_spec. change (Prim2SF nan) with S754_nan.
  unfold SFleb, SFcompare. destruct (Prim2SF p); reflexivity.
Qed.

Lemma filter_none {X} (f : X -> bool) (l : list X) :
  (forall x, f x = false) -> filter f l = [].
Proof.
  intros H. induction l as [|x l IH]; simpl; [reflexivity|].
  rewrite H. exact IH.
Qed.

(** X3. In binary64 a NaN compares false with everything, so a NaN query is
    on no axis and has no bound on either side: [_find_bounds] raises
    [ValueError] for it on every grid. *)
Theorem find_bounds_rejects_nan
    (self : PHOENIXLibrary float) (key : Key) (inputs : list (Key * float)) :
  exists m, _find_bounds self nan key inputs = Raise (ValueError m).
Proof.
  unfold _find_bounds. cbv zeta.
  assert (Hc : contains (metadata self key) nan = false).
  { unfold contains. induction (metadata self key) as [|p l IH]; simpl;
      [reflexivity|].
    change (PrimFloat.eqb p nan || existsb (fun p => eqb p nan) l = false).
    rewrite nan_eqb. exact IH. }
  rewrite Hc.
  rewrite (filter_none (fun p => ltb nan p)) by exact nan_ltb.
  simpl np_min at 1.
  destruct (np_min (metadata self key)), (np_max (metadata self key));
    eexists; reflexivity.
Qed.

(** ** [_find_smallest_R] on any list *)

(** Either every listed resolution is below the request and indexing raises,
    or the answer is the first listed resolution that is sufficient. *)
Lemma find_smallest_R_cases (available : list Z) (R : R) :
  ((forall a, In a available -> IZR a < R)
   /\ _find_smallest_R available R = ([], Raise IndexError))
  \/ (exists pre r post,
        available = pre ++ r :: post
        /\ (forall a, In a pre -> IZR a < R)
        /\ R <= IZR r
        /\ _find_smallest_R available R = ([], Ok r)).
Proof.
  unfold _find_smallest_R.
  rewrite <- (map_map of_Z (fun a => leb R a)), map_map.
  destruct (flatnonzero_from_first (fun a => leb R (of_Z a)) available 0%nat)
    as [[Hnil Hall] | (pre & r & post & rest & Heq & Hpre & Hr & Hflat)].
  - left. split.
    + intros a Ha. specialize (Hall a Ha). apply Rleb_gt in Hall. exact Hall.
    + unfold flatnonzero. rewrite Hnil. reflexivity.
  - right. exists pre, r, post. split; [exact Heq|]. split; [|split].
    + intros a Ha. specialize (Hpre a Ha). apply Rleb_gt in Hpre. exact Hpre.
    + apply Rleb_le in Hr. exact Hr.
    + unfold flatnonzero. rewrite Hflat. subst available.
      unfold getitem. simpl. rewrite nth_error_app2 by lia.
      rewrite Nat.sub_diag. reflexivity.
Qed.

(** X4. Whatever the list and the request, [_find_smallest_R] issues no warning,
    and it either raises [IndexError], exactly when every listed resolution is
    below the request, or returns a listed resolution that is at least the
    request. *)
Theorem find_smallest_R_outcomes (available : list Z) (R : R) :
  fst (_find_smallest_R available R) = []
  /\ (snd (_find_smallest_R available R) = Raise IndexError
      <-> forall a, In a available -> IZR a < R)
  /\ (forall e, snd (_find_smallest_R available R) = Raise e -> e = IndexError)
  /\ (forall r, snd (_find_smallest_R available R) = Ok r ->
                In r available /\ R <= IZR r).
Proof.
  destruct (find_smallest_R_cases available R)
    as [[Hall Heq] | (pre & r & post & Hav & Hpre & Hr & Heq)]; rewrite Heq; simpl.
  - split; [reflexivity|]. split; [tauto|]. split.
    + intros e H. injection H as <-. reflexivity.
    + intros r H. discriminate.
  - split; [reflexivity|]. split; [|split].
    + split; [discriminate|]. intros Hall. exfalso.
      assert (Hin : In r available) by (subst; apply in_or_app; right; left; auto).
      specialize (Hall r Hin). lra.
    + intros e H. discriminate.
    + intros r' H. injection H as <-. split; [|exact Hr].
      subst. apply in_or_app. right. left. reflexivity.
Qed.

(** X5. On an ascending list every listed resolution is its own answer. *)
Theorem find_smallest_R_of_listed (available : list Z) (a : Z) :
  Sorted Z.le available ->
  In a available ->
  _find_smallest_R available (IZR a) = ([], Ok a).
Proof.
  intros Hsorted Hin.
  destruct (find_smallest_R_cases available (IZR a))
    as [[Hall _] | (pre & r & post & Hav & Hpre & Hr & Heq)].
  - specialize (Hall a Hin). lra.
  - rewrite Heq. apply le_IZR in Hr.
    assert (Hra : (r <= a)%Z).
    { rewrite Hav in Hin. apply in_app_or in Hin. destruct Hin as [Hin|[<-|Hin]].
      - specialize (Hpre a Hin). lra.
      - lia.
      - rewrite Hav in Hsorted. exact (sorted_after pre post r Hsorted a Hin). }
    replace r with a by lia. reflexivity.
Qed.

Lemma find_smallest_R_of_listed_witness :
  _find_smallest_R _available_resolutions 3000 = ([], Ok 3000%Z).
Proof.
  apply (find_smallest_R_of_listed _available_resolutions 3000%Z).
  - exact available_resolutions_sorted.
  - simpl. tauto.
Defined.

(** X6. On an ascending list the answer grows with the request: when a request
    is answered, every smaller request is answered too, by a resolution that
    is not larger. *)
Theorem find_smallest_R_monotone (available : list Z) (R1 R2 : R) (r2 : Z) :
  Sorted Z.le available ->
  R1 <= R2 ->
  snd (_find_smallest_R available R2) = Ok r2 ->
  exists r1, snd (_find_smallest_R available R1) = Ok r1 /\ (r1 <= r2)%Z.
Proof.
  intros Hsorted Hle H2.
  assert (Hin2 : In r2 available /\ R2 <= IZR r2).
  { destruct (find_smallest_R_cases available R2)
      as [[_ Heq] | (pre & r & post & Hav & _ & Hr & Heq)];
      rewrite Heq in H2; simpl in H2; [discriminate|].
    injection H2 as <-. split; [|exact Hr].
    subst. apply in_or_app. right. left. reflexivity. }
  destruct Hin2 as [Hin2 HR2].
  destruct (find_smallest_R_cases available R1)
    as [[Hall _] | (pre & r1 & post & Hav & Hpre & Hr & Heq)].
  - specialize (Hall r2 Hin2). lra.
  - exists r1. rewrite Heq. split; [reflexivity|].
    rewrite Hav in Hin2. apply in_app_or in Hin2.
    destruct Hin2 as [Hin|[<-|Hin]].
    + specialize (Hpre r2 Hin). lra.
    + lia.
    + rewrite Hav in Hsorted. exact (sorted_after pre post r1 Hsorted r2 Hin).
Qed.

Lemma find_smallest_R_monotone_witness :
  exists r1,
    snd (_find_smallest_R _available_resolutions 40) = Ok r1 /\ (r1 <= 1000)%Z.
Proof.
  apply (find_smallest_R_monotone _available_resolutions 40 450 1000%Z).
  - exact available_resolutions_sorted.
  - lra.
  - Rrun. reflexivity.
Defined.

(** ** The two branches of [get_spectrum], for every kind of number *)

Section Branches.
Context {A : Type} {num : Num A} {lg : Log A}.

Lemma find_bounds_raises_value_error (self : PHOENIXLibrary A) v key inputs e :
  _find_bounds self v key inputs = Raise e -> exists m, e = ValueError m.
Proof.
  unfold _find_bounds.
  repeat match goal with
         | |- context [if ?c then _ else _] => destruct c
         | |- context [match ?x with Some _ => _ | None => _ end] => destruct x
         end;
    intros H; try discriminate; injection H as <-; eexists; reflexivity.
Qed.

Lemma interpolation_weights_length (v : A) (b w : list A) :
  _get_interpolation_weights v b = Some w -> List.length w = List.length b.
Proof.
  destruct b as [|b0 [|b1 [|? ?]]]; simpl; intros H; try discriminate;
    injection H as <-; reflexivity.
Qed.

Lemma lattice_keys_length (bT bG bZ : list A) :
  List.length (lattice_keys bT bG bZ)
  = (List.length bT * List.length bG * List.length bZ)%nat.
Proof.
  unfold lattice_keys.
  induction bT as [|t bT IHT]; simpl; [reflexivity|].
  rewrite length_app, IHT.
  assert (Hinner :
    List.length (flat_map (fun g => map (fun z => (t, g, z)) bZ) bG)
    = (List.length bG * List.length bZ)%nat).
  { clear IHT. induction bG as [|g bG IHG]; simpl; [reflexivity|].
    rewrite length_app, length_map, IHG. reflexivity. }
  rewrite Hinner. lia.
Qed.

Lemma lookup_all_length (self : PHOENIXLibrary A) keys specs :
  lookup_all self keys = Ok specs -> List.length specs = List.length keys.
Proof.
  revert specs. induction keys as [|k keys IH]; simpl; intros specs H.
  - injection H as <-. reflexivity.
  - destruct (models_getitem self k) as [s|e]; simpl in H; [|discriminate].
    destruct (lookup_all self keys) as [ss|e]; simpl in H; [|discriminate].
    injection H as <-. simpl. rewrite (IH ss eq_refl). reflexivity.
Qed.

(** Every spectrum that the loop collects is a value of [models]. *)
Lemma lookup_all_stored (self : PHOENIXLibrary A) keys specs :
  lookup_all self keys = Ok specs ->
  Forall (fun s => exists k, models_get (models self) k = Some s) specs.
Proof.
  revert specs. induction keys as [|k keys IH]; simpl; intros specs H.
  - injection H as <-. constructor.
  - unfold models_getitem in H at 1.
    destruct (models_get (models self) k) as [s|] eqn:Hk; simpl in H;
      [|discriminate].
    destruct (lookup_all self keys) as [ss|e]; simpl in H; [|discriminate].
    injection H as <-. constructor; [exists k; exact Hk | apply IH; reflexivity].
Qed.

(** [get_spectrum] once the three bounds are found: the spectra of the
    lattice keys are looked up in loop order, the first absent key raises, and
    the spectra are then either returned (one key) or combined. *)
Lemma get_spectrum_lookup (self : PHOENIXLibrary A) T g z bT bG bZ :
  let inputs := make_inputs T g z in
  let N := (List.length bT * List.length bG * List.length bZ)%nat in
  _find_bounds self T Temperature inputs = Ok bT ->
  _find_bounds self g Logg inputs = Ok bG ->
  _find_bounds self z Metallicity inputs = Ok bZ ->
  exists wT wG wZ,
    List.length wT = List.length bT
    /\ List.length wG = List.length bG
    /\ List.length wZ = List.length bZ
    /\ _get_interpolation_weights (log T) (map log bT) = Some wT
    /\ _get_interpolation_weights g bG = Some wG
    /\ _get_interpolation_weights z bZ = Some wZ
    /\ get_spectrum self T g z
       = match lookup_all self (lattice_keys bT bG bZ) with
         | Raise e => Raise e
         | Ok specs =>
             spectrum <- (if Nat.eqb N 1 then Ok (hd [] specs)
                          else combine_spectra (combined wT wG wZ) specs) ;;
             Ok (wavelength self,
                 mkQuantity spectrum (metadata_spectrum_unit self))
         end.
Proof.
  intros inputs N HT HG HZ.
  pose proof (find_bounds_shaped _ _ _ _ _ HT) as HsT.
  pose proof (find_bounds_shaped _ _ _ _ _ HG) as HsG.
  pose proof (find_bounds_shaped _ _ _ _ _ HZ) as HsZ.
  destruct (weights_and_spectra_spec self T g z bT bG bZ HsT HsG HsZ)
    as (wT & wG & wZ & HwT & HwG & HwZ & Hws).
  exists wT, wG, wZ.
  split; [rewrite (interpolation_weights_length _ _ _ HwT); apply length_map|].
  split; [exact (interpolation_weights_length _ _ _ HwG)|].
  split; [exact (interpolation_weights_length _ _ _ HwZ)|].
  split; [exact HwT|]. split; [exact HwG|]. split; [exact HwZ|].
  subst N. unfold get_spectrum. fold inputs. cbv zeta.
  rewrite HT, HG, HZ. cbn [bind].
  destruct (Nat.eqb (List.length bT * List.length bG * List.length bZ) 1)
    eqn:HN.
  - apply Nat.eqb_eq in HN.
    destruct bT as [|t [|? ?]]; try contradiction;
      destruct bG as [|g0 [|? ?]]; try contradiction;
      destruct bZ as [|z0 [|? ?]]; try contradiction;
      simpl in HN; try discriminate.
    cbn. destruct (models_getitem self (t, g0, z0)); reflexivity.
  - rewrite Hws.
    destruct (lookup_all self (lattice_keys bT bG bZ)); reflexivity.
Qed.

Lemma add_rows_length (r s : list A) (L : nat) :
  List.length r = L -> List.length s = L -> List.length (add_rows r s) = L.
Proof.
  revert s L. induction r as [|x r IH]; intros [|y s] L Hr Hs; simpl in *;
    try congruence.
  destruct L as [|L]; [discriminate|]. f_equal. apply IH; congruence.
Qed.

Lemma fold_add_rows_length (rows : list (list A)) (L : nat) :
  Forall (fun s => List.length s = L) rows ->
  forall r, List.length r = L -> List.length (fold_left add_rows rows r) = L.
Proof.
  induction 1 as [|s rows Hs _ IH]; intros r Hr; simpl; [exact Hr|].
  apply IH. apply add_rows_length; assumption.
Qed.

Lemma scale_rows_length (L : nat) (ws : list A) (rows : list (list A)) :
  Forall (fun s => List.length s = L) rows ->
  Forall (fun s => List.length s = L) (scale_rows ws rows).
Proof.
  intros H. revert ws. induction H as [|s rows Hs _ IH]; intros [|w ws]; simpl;
    constructor; auto. rewrite length_map. exact Hs.
Qed.

(** X7. On a grid whose spectra all have the length of the wavelength array,
    every spectrum that [get_spectrum] returns has that length too, whether
    it was looked up or interpolated. *)
Theorem get_spectrum_flux_length
    (self : PHOENIXLibrary A) (temperature logg metallicity : A)
    (w q : Quantity A) :
  (forall key s, models_get (models self) key = Some s ->
                 List.length s = List.length (metadata_wavelength self)) ->
  get_spectrum self temperature logg metallicity = Ok (w, q) ->
  w = wavelength self /\ List.length (value q) = List.length (value w).
Proof.
  intros Hlen Hrun.
  set (inputs := make_inputs temperature logg metallicity).
  destruct (_find_bounds self temperature Temperature inputs) as [bT|e] eqn:HT;
    [|unfold get_spectrum in Hrun; fold inputs in Hrun; cbv zeta in Hrun;
      rewrite HT in Hrun; discriminate].
  destruct (_find_bounds self logg Logg inputs) as [bG|e] eqn:HG;
    [|unfold get_spectrum in Hrun; fold inputs in Hrun; cbv zeta in Hrun;
      rewrite HT, HG in Hrun; discriminate].
  destruct (_find_bounds self metallicity Metallicity inputs) as [bZ|e] eqn:HZ;
    [|unfold get_spectrum in Hrun; fold inputs in Hrun; cbv zeta in Hrun;
      rewrite HT, HG, HZ in Hrun; discriminate].
  destruct (get_spectrum_lookup self temperature logg metallicity bT bG bZ
              HT HG HZ)
    as (wT & wG & wZ & HlT & HlG & HlZ & _ & _ & _ & Heq).
  rewrite Heq in Hrun. clear Heq.
  destruct (lookup_all self (lattice_keys bT bG bZ)) as [specs|e] eqn:Hl;
    [|discriminate].
  assert (Hspecs : Forall (fun s => List.length s
                                    = List.length (metadata_wavelength self)) specs).
  { eapply Forall_impl; [|exact (lookup_all_stored self _ _ Hl)].
    intros s [k Hk]. exact (Hlen k s Hk). }
  pose proof (lookup_all_length self _ _ Hl) as Hn.
  rewrite lattice_keys_length in Hn.
  pose proof (bound_shaped_length bT (find_bounds_shaped _ _ _ _ _ HT)) as H1.
  pose proof (bound_shaped_length bG (find_bounds_shaped _ _ _ _ _ HG)) as H2.
  pose proof (bound_shaped_length bZ (find_bounds_shaped _ _ _ _ _ HZ)) as H3.
  destruct specs as [|s specs]; [simpl in Hn; nia|].
  destruct (Nat.eqb _ 1).
  - simpl in Hrun. injection Hrun as <- <-. split; [reflexivity|].
    simpl. inversion Hspecs; assumption.
  - unfold combine_spectra in Hrun. cbv zeta in Hrun.
    destruct (weight_sum_accepted _); simpl in Hrun; [|discriminate].
    injection Hrun as <- <-. split; [reflexivity|]. simpl value.
    pose proof (combined_length wT wG wZ) as Hc.
    destruct (combined wT wG wZ) as [|c cs]; [simpl in Hc; nia|].
    simpl. inversion Hspecs as [|? ? Hs Hrest]; subst.
    apply fold_add_rows_length.
    + apply scale_rows_length. exact Hrest.
    + rewrite length_map. exact Hs.
Qed.

End Branches.

Lemma get_spectrum_flux_length_witness :
  mkQuantity [1; 2; 3] "micron" = wavelength example_grid
  /\ List.length [2.5; 3.5; 4.5] = List.length [1; 2; 3].
Proof.
  apply (get_spectrum_flux_length example_grid 3000 4.75 0
           (mkQuantity [1; 2; 3] "micron")
           (mkQuantity [2.5; 3.5; 4.5] "ph / (m2 nm s)")).
  - intros key s Hs. apply models_get_In in Hs. simpl in Hs.
    repeat (destruct Hs as [Hs|Hs]; [injection Hs as _ <-; reflexivity|]).
    contradiction.
  - exact get_spectrum_between_loggs.
Defined.

(** ** [get_spectrum] over the real numbers, in range *)

Lemma quotient_unit (x s : R) : 0 < x -> x <= s -> unit_weight (x / s).
Proof.
  intros Hx Hs. unfold unit_weight. split.
  - apply Rdiv_lt_0_compat; lra.
  - apply (Rmult_le_reg_r s); [lra|].
    unfold Rdiv. rewrite Rmult_assoc, Rinv_l by lra. lra.
Qed.

Lemma linear_weights_unit (self : PHOENIXLibrary R) v key inputs b :
  _find_bounds self v key inputs = Ok b ->
  Forall unit_weight (linear_weights v b).
Proof.
  intros H. pose proof (find_bounds_shaped _ _ _ _ _ H) as Hs.
  destruct b as [|b0 [|b1 [|? ?]]]; simpl in Hs; try contradiction.
  - simpl. constructor; [unfold unit_weight; lra | constructor].
  - destruct (find_bounds_strict _ _ _ _ _ _ H) as (_ & Hlo & Hhi).
    simpl. constructor; [apply quotient_unit; lra|].
    constructor; [apply quotient_unit; lra | constructor].
Qed.

Lemma log_weights_unit (self : PHOENIXLibrary R) T inputs b :
  (forall t, In t (metadata self Temperature) -> 0 < t) ->
  _find_bounds self T Temperature inputs = Ok b ->
  Forall unit_weight (log_weights T b).
Proof.
  intros Hpos H. pose proof (find_bounds_shaped _ _ _ _ _ H) as Hs.
  destruct b as [|b0 [|b1 [|? ?]]]; simpl in Hs; try contradiction.
  - simpl. constructor; [unfold unit_weight; lra | constructor].
  - destruct (find_bounds_strict _ _ _ _ _ _ H) as (Hin & Hlo & Hhi).
    pose proof (Hpos _ Hin) as Hb0.
    assert (ln b0 < ln T) by (apply ln_increasing; lra).
    assert (ln T < ln b1) by (apply ln_increasing; lra).
    simpl. constructor; [apply quotient_unit; lra|].
    constructor; [apply quotient_unit; lra | constructor].
Qed.

Lemma combined_unit (wT wG wZ : list R) :
  Forall unit_weight wT -> Forall unit_weight wG -> Forall unit_weight wZ ->
  Forall unit_weight (combined wT wG wZ).
Proof.
  intros HT HG HZ. rewrite Forall_forall in *. intros w Hw.
  unfold combined in Hw.
  apply in_flat_map in Hw. destruct Hw as (wt & Hwt & Hw).
  apply in_flat_map in Hw. destruct Hw as (wg & Hwg & Hw).
  apply in_map_iff in Hw. destruct Hw as (wz & <- & Hwz).
  specialize (HT _ Hwt). specialize (HG _ Hwg). specialize (HZ _ Hwz).
  unfold unit_weight in *. change (0 < wt * wg * wz <= 1).
  assert (0 < wt * wg) by nra. assert (wt * wg <= 1) by nra. nra.
Qed.

Lemma map_divided_by_one (s : R) (l : list R) :
  s = 1 -> map (fun w => w / s) l = l.
Proof.
  intros ->. induction l as [|x l IH]; simpl; [reflexivity|].
  rewrite IH. f_equal. field.
Qed.

(** [get_spectrum] on a grid of positive temperatures, once the three bounds
    are found: the first absent lattice key raises; otherwise the stored
    spectrum (one key) or the weighted sum of the lattice spectra is
    returned, the assertion holds and the division by the sum changes
    nothing. *)
Lemma get_spectrum_in_range (self : PHOENIXLibrary R) T g z bT bG bZ :
  let inputs := make_inputs T g z in
  (forall t, In t (metadata self Temperature) -> 0 < t) ->
  _find_bounds self T Temperature inputs = Ok bT ->
  _find_bounds self g Logg inputs = Ok bG ->
  _find_bounds self z Metallicity inputs = Ok bZ ->
  get_spectrum self T g z
  = match lookup_all self (lattice_keys bT bG bZ) with
    | Raise e => Raise e
    | Ok specs =>
        Ok (wavelength self,
            mkQuantity
              (if Nat.eqb (List.length bT * List.length bG * List.length bZ) 1
               then hd [] specs
               else np_sum_axis0
                      (scale_rows (combined (log_weights T bT)
                                            (linear_weights g bG)
                                            (linear_weights z bZ)) specs))
              (metadata_spectrum_unit self))
    end.
Proof.
  intros inputs Hpos HT HG HZ.
  pose proof (find_bounds_shaped _ _ _ _ _ HT) as HsT.
  pose proof (find_bounds_shaped _ _ _ _ _ HG) as HsG.
  pose proof (find_bounds_shaped _ _ _ _ _ HZ) as HsZ.
  destruct (get_spectrum_lookup self T g z bT bG bZ HT HG HZ)
    as (wT & wG & wZ & _ & _ & _ & HwT & HwG & HwZ & Heq).
  rewrite interpolation_weights_log in HwT by exact HsT.
  rewrite interpolation_weights_linear in HwG by exact HsG.
  rewrite interpolation_weights_linear in HwZ by exact HsZ.
  injection HwT as <-. injection HwG as <-. injection HwZ as <-.
  rewrite Heq. clear Heq.
  destruct (lookup_all self (lattice_keys bT bG bZ)) as [specs|e];
    [|reflexivity].
  destruct (Nat.eqb _ 1); [reflexivity|].
  assert (Hsum : np_sum (combined (log_weights T bT) (linear_weights g bG)
                                  (linear_weights z bZ)) = 1).
  { rewrite np_sum_combined.
    rewrite (log_weights_sum self T inputs bT Hpos HT).
    rewrite (linear_weights_sum self g Logg inputs bG HG).
    rewrite (linear_weights_sum self z Metallicity inputs bZ HZ). lra. }
  unfold combine_spectra. cbv zeta.
  rewrite (proj2 (weight_sum_accepted_iff _)) by (right; lra).
  rewrite map_divided_by_one by exact Hsum. reflexivity.
Qed.

Lemma get_spectrum_bounds_found (self : PHOENIXLibrary R) T g z r :
  get_spectrum self T g z = Ok r ->
  exists bT bG bZ,
    _find_bounds self T Temperature (make_inputs T g z) = Ok bT
    /\ _find_bounds self g Logg (make_inputs T g z) = Ok bG
    /\ _find_bounds self z Metallicity (make_inputs T g z) = Ok bZ.
Proof.
  unfold get_spectrum. cbv zeta. intros H.
  destruct (_find_bounds self T Temperature _) as [bT|e]; [|discriminate].
  destruct (_find_bounds self g Logg _) as [bG|e]; [|discriminate].
  destruct (_find_bounds self z Metallicity _) as [bZ|e]; [|discriminate].
  exists bT, bG, bZ. auto.
Qed.

(** X8. On a grid of positive temperatures [get_spectrum] returns a spectrum
    exactly when the three values are within the limits of their axes and
    every lattice key built from the bounds is a key of [models]. *)
Theorem get_spectrum_succeeds_iff
    (self : PHOENIXLibrary R) (temperature logg metallicity : R) :
  let inputs := make_inputs temperature logg metallicity in
  (forall t, In t (metadata self Temperature) -> 0 < t) ->
  ((exists r, get_spectrum self temperature logg metallicity = Ok r)
   <-> exists bT bG bZ,
         _find_bounds self temperature Temperature inputs = Ok bT
         /\ _find_bounds self logg Logg inputs = Ok bG
         /\ _find_bounds self metallicity Metallicity inputs = Ok bZ
         /\ forall k, In k (lattice_keys bT bG bZ) ->
                      models_get (models self) k <> None).
Proof.
  intros inputs Hpos. split.
  - intros [r Hr].
    destruct (get_spectrum_bounds_found self _ _ _ r Hr)
      as (bT & bG & bZ & HT & HG & HZ).
    exists bT, bG, bZ. repeat (split; [assumption|]).
    rewrite (get_spectrum_in_range self _ _ _ bT bG bZ Hpos HT HG HZ) in Hr.
    destruct (lookup_all self (lattice_keys bT bG bZ)) as [specs|e] eqn:Hl;
      [|discriminate].
    exact (lookup_all_ok self _ _ Hl).
  - intros (bT & bG & bZ & HT & HG & HZ & Hall).
    rewrite (get_spectrum_in_range self _ _ _ bT bG bZ Hpos HT HG HZ).
    destruct (lookup_all_total self _ Hall) as (specs & -> & _).
    eexists. reflexivity.
Qed.

(** X9. On a grid of positive temperatures [get_spectrum] fails in two ways only:
    with the [ValueError] of [_find_bounds], or with the [KeyError] of a key
    that is absent from [models]. It never fails its assertion, and never
    indexes or iterates out of range. *)
Theorem get_spectrum_raises_value_or_key_error
    (self : PHOENIXLibrary R) (temperature logg metallicity : R)
    (e : exception R) :
  (forall t, In t (metadata self Temperature) -> 0 < t) ->
  get_spectrum self temperature logg metallicity = Raise e ->
  (exists m, e = ValueError m)
  \/ (exists k, e = KeyError k /\ models_get (models self) k = None).
Proof.
  intros Hpos Hrun.
  set (inputs := make_inputs temperature logg metallicity).
  destruct (_find_bounds self temperature Temperature inputs) as [bT|e1] eqn:HT.
  2:{ left. unfold get_spectrum in Hrun. fold inputs in Hrun. cbv zeta in Hrun.
      rewrite HT in Hrun. injection Hrun as <-.
      exact (find_bounds_raises_value_error _ _ _ _ _ HT). }
  destruct (_find_bounds self logg Logg inputs) as [bG|e1] eqn:HG.
  2:{ left. unfold get_spectrum in Hrun. fold inputs in Hrun. cbv zeta in Hrun.
      rewrite HT, HG in Hrun. injection Hrun as <-.
      exact (find_bounds_raises_value_error _ _ _ _ _ HG). }
  destruct (_find_bounds self metallicity Metallicity inputs) as [bZ|e1] eqn:HZ.
  2:{ left. unfold get_spectrum in Hrun. fold inputs in Hrun. cbv zeta in Hrun.
      rewrite HT, HG, HZ in Hrun. injection Hrun as <-.
      exact (find_bounds_raises_value_error _ _ _ _ _ HZ). }
  right.
  rewrite (get_spectrum_in_range self _ _ _ bT bG bZ Hpos HT HG HZ) in Hrun.
  destruct (lookup_all self (lattice_keys bT bG bZ)) as [specs|e1] eqn:Hl;
    [discriminate|].
  injection Hrun as <-.
  destruct (lookup_all_raise self _ _ Hl) as (k & _ & Hnone & ->).
  exists k. auto.
Qed.

(** X10. For a query in range and not exact, on a grid of positive temperatures
    with every lattice key present, [get_spectrum] returns the sum of the
    lattice spectra weighted by the products of the per-axis weights (in log
    space for the temperature): the division by the weight sum leaves the
    weights as they are. *)
Theorem get_spectrum_weighted_sum
    (self : PHOENIXLibrary R) (temperature logg metallicity : R)
    (bT bG bZ : list R) (spectra : list (list R)) :
  let inputs := make_inputs temperature logg metallicity in
  (forall t, In t (metadata self Temperature) -> 0 < t) ->
  _find_bounds self temperature Temperature inputs = Ok bT ->
  _find_bounds self logg Logg inputs = Ok bG ->
  _find_bounds self metallicity Metallicity inputs = Ok bZ ->
  (List.length bT * List.length bG * List.length bZ <> 1)%nat ->
  lookup_all self (lattice_keys bT bG bZ) = Ok spectra ->
  get_spectrum self temperature logg metallicity
  = Ok (wavelength self,
        mkQuantity
          (np_sum_axis0
             (scale_rows (combined (log_weights temperature bT)
                                   (linear_weights logg bG)
                                   (linear_weights metallicity bZ)) spectra))
          (metadata_spectrum_unit self)).
Proof.
  intros inputs Hpos HT HG HZ HN Hl.
  rewrite (get_spectrum_in_range self _ _ _ bT bG bZ Hpos HT HG HZ).
  rewrite Hl. apply Nat.eqb_neq in HN. rewrite HN. reflexivity.
Qed.

(** X11. The combined weights of a query in range are positive and at most 1:
    the code interpolates and never extrapolates. *)
Theorem combined_weights_are_unit
    (self : PHOENIXLibrary R) (temperature logg metallicity : R)
    (bT bG bZ : list R) (weights : list R) (spectra : list (list R)) :
  let inputs := make_inputs temperature logg metallicity in
  let N := (List.length bT * List.length bG * List.length bZ)%nat in
  (forall t, In t (metadata self Temperature) -> 0 < t) ->
  _find_bounds self temperature Temperature inputs = Ok bT ->
  _find_bounds self logg Logg inputs = Ok bG ->
  _find_bounds self metallicity Metallicity inputs = Ok bZ ->
  weights_and_spectra self temperature logg metallicity bT bG bZ N
  = Ok (weights, spectra) ->
  Forall (fun w => 0 < w <= 1) weights.
Proof.
  intros inputs N Hpos HT HG HZ Hrun.
  pose proof (find_bounds_shaped _ _ _ _ _ HT) as HsT.
  pose proof (find_bounds_shaped _ _ _ _ _ HG) as HsG.
  pose proof (find_bounds_shaped _ _ _ _ _ HZ) as HsZ.
  destruct (weights_and_spectra_inv self _ _ _ _ _ _ _ _ HsT HsG HsZ Hrun)
    as [-> _].
  apply combined_unit.
  - exact (log_weights_unit self temperature inputs bT Hpos HT).
  - exact (linear_weights_unit self logg Logg inputs bG HG).
  - exact (linear_weights_unit self metallicity Metallicity inputs bZ HZ).
Qed.

Lemma sparse_temperatures_positive :
  forall t, In t (metadata sparse_grid Temperature) -> 0 < t.
Proof.
  intros t Ht. rewrite sparse_axes in Ht. simpl in Ht.
  destruct Ht as [<-|[<-|[]]]; lra.
Qed.

Lemma get_spectrum_succeeds_iff_witness :
  (exists r, get_spectrum example_grid 3250 4.75 0 = Ok r)
  <-> exists bT bG bZ,
        _find_bounds example_grid 3250 Temperature (make_inputs 3250 4.75 0)
        = Ok bT
        /\ _find_bounds example_grid 4.75 Logg (make_inputs 3250 4.75 0) = Ok bG
        /\ _find_bounds example_grid 0 Metallicity (make_inputs 3250 4.75 0)
           = Ok bZ
        /\ forall k, In k (lattice_keys bT bG bZ) ->
                     models_get (models example_grid) k <> None.
Proof.
  apply (get_spectrum_succeeds_iff example_grid 3250 4.75 0).
  exact example_temperatures_positive.
Defined.

Lemma get_spectrum_raises_value_or_key_error_witness :
  (exists m, KeyError (3500, 5, 0) = ValueError m)
  \/ (exists k, KeyError (3500, 5, 0) = KeyError k
                /\ models_get (models sparse_grid) k = None).
Proof.
  apply (get_spectrum_raises_value_or_key_error sparse_grid 3250 4.75 0).
  - exact sparse_temperatures_positive.
  - exact get_spectrum_sparse.
Defined.

Lemma get_spectrum_weighted_sum_witness :
  get_spectrum example_grid 3250 4.75 0
  = Ok (wavelength example_grid,
        mkQuantity
          (np_sum_axis0
             (scale_rows (combined (log_weights 3250 [3000; 3500])
                                   (linear_weights 4.75 [4.5; 5])
                                   (linear_weights 0 [0]))
                         [[1; 2; 3]; [4; 5; 6]; [7; 8; 9]; [10; 11; 12]]))
          (metadata_spectrum_unit example_grid)).
Proof.
  apply (get_spectrum_weighted_sum example_grid 3250 4.75 0).
  - exact example_temperatures_positive.
  - Rrun. reflexivity.
  - Rrun. reflexivity.
  - Rrun. reflexivity.
  - simpl. discriminate.
  - Rrun. reflexivity.
Defined.

Lemma combined_weights_are_unit_witness :
  exists weights spectra,
    weights_and_spectra example_grid 3250 4.75 0 [3000; 3500] [4.5; 5] [0] 4
    = Ok (weights, spectra)
    /\ Forall (fun w => 0 < w <= 1) weights.
Proof.
  destruct (weights_and_spectra example_grid 3250 4.75 0
              [3000; 3500] [4.5; 5] [0] 4) as [[weights spectra]|e] eqn:Hrun.
  - exists weights, spectra. split; [reflexivity|].
    apply (combined_weights_are_unit example_grid 3250 4.75 0
             [3000; 3500] [4.5; 5] [0] weights spectra).
    + exact example_temperatures_positive.
    + Rrun. reflexivity.
    + Rrun. reflexivity.
    + Rrun. reflexivity.
    + exact Hrun.
  - exfalso. revert Hrun. Rrun. discriminate.
Defined.

(** ** What interpolation preserves *)

Lemma add_scaled (s : list R) (c w : R) :
  add_rows (map (Rmult c) s) (map (Rmult w) s) = map (Rmult (c + w)) s.
Proof.
  induction s as [|x s IH]; simpl; [reflexivity|].
  rewrite IH. f_equal. change (c * x + w * x = (c + w) * x). ring.
Qed.

Lemma fold_scaled_constant (s : list R) (ws : list R) :
  forall c,
  fold_left add_rows (scale_rows ws (repeat s (List.length ws))) (map (Rmult c) s)
  = map (Rmult (c + np_sum ws)) s.
Proof.
  induction ws as [|w ws IH]; intros c; simpl.
  - rewrite np_sum_nil, Rplus_0_r. reflexivity.
  - change (map (mul w) s) with (map (Rmult w) s).
    rewrite add_scaled, IH, np_sum_cons.
    replace (c + w + np_sum ws) with (c + (w + np_sum ws)) by ring.
    reflexivity.
Qed.

Lemma np_sum_axis0_constant (s : list R) (ws : list R) :
  ws <> [] ->
  np_sum ws = 1 ->
  np_sum_axis0 (scale_rows ws (repeat s (List.length ws))) = s.
Proof.
  intros Hne Hsum. destruct ws as [|w ws]; [congruence|].
  simpl. change (map (mul w) s) with (map (Rmult w) s).
  rewrite fold_scaled_constant. rewrite np_sum_cons in Hsum. rewrite Hsum.
  rewrite <- (map_id s) at 2. apply map_ext. intros x. ring.
Qed.

Lemma lookup_all_constant (self : PHOENIXLibrary R) keys (s : list R) :
  (forall k, In k keys -> models_get (models self) k = Some s) ->
  lookup_all self keys = Ok (repeat s (List.length keys)).
Proof.
  induction keys as [|k keys IH]; intros H; simpl; [reflexivity|].
  unfold models_getitem at 1. rewrite (H k) by (left; reflexivity). simpl.
  rewrite IH by (intros k' Hk'; apply H; right; exact Hk'). reflexivity.
Qed.

(** X12. Interpolation reproduces constants: when every lattice point of a query
    in range holds the same spectrum, that spectrum is what [get_spectrum]
    returns. *)
Theorem get_spectrum_reproduces_constant
    (self : PHOENIXLibrary R) (temperature logg metallicity : R)
    (bT bG bZ : list R) (s : list R) :
  let inputs := make_inputs temperature logg metallicity in
  (forall t, In t (metadata self Temperature) -> 0 < t) ->
  _find_bounds self temperature Temperature inputs = Ok bT ->
  _find_bounds self logg Logg inputs = Ok bG ->
  _find_bounds self metallicity Metallicity inputs = Ok bZ ->
  (forall k, In k (lattice_keys bT bG bZ) ->
             models_get (models self) k = Some s) ->
  get_spectrum self temperature logg metallicity
  = Ok (wavelength self, mkQuantity s (metadata_spectrum_unit self)).
Proof.
  intros inputs Hpos HT HG HZ Hall.
  pose proof (find_bounds_shaped _ _ _ _ _ HT) as HsT.
  pose proof (find_bounds_shaped _ _ _ _ _ HG) as HsG.
  pose proof (find_bounds_shaped _ _ _ _ _ HZ) as HsZ.
  rewrite (get_spectrum_in_range self _ _ _ bT bG bZ Hpos HT HG HZ).
  rewrite (lookup_all_constant self _ s Hall), lattice_keys_length.
  pose proof (bound_shaped_length bT HsT) as H1.
  pose proof (bound_shaped_length bG HsG) as H2.
  pose proof (bound_shaped_length bZ HsZ) as H3.
  set (N := (List.length bT * List.length bG * List.length bZ)%nat) in *.
  assert (HN : (1 <= N)%nat) by (unfold N; nia).
  do 2 f_equal. f_equal.
  destruct (Nat.eqb N 1) eqn:HN1.
  - apply Nat.eqb_eq in HN1. rewrite HN1. reflexivity.
  - set (ws := combined (log_weights temperature bT) (linear_weights logg bG)
                        (linear_weights metallicity bZ)).
    assert (Hlen : List.length ws = N).
    { unfold ws. rewrite combined_length, log_weights_length,
        !linear_weights_length by assumption. reflexivity. }
    rewrite <- Hlen. apply np_sum_axis0_constant.
    + intros Hnil. rewrite Hnil in Hlen. simpl in Hlen. lia.
    + unfold ws. rewrite np_sum_combined.
      rewrite (log_weights_sum self temperature inputs bT Hpos HT).
      rewrite (linear_weights_sum self logg Logg inputs bG HG).
      rewrite (linear_weights_sum self metallicity Metallicity inputs bZ HZ).
      lra.
Qed.

Lemma get_spectrum_reproduces_constant_witness :
  get_spectrum constant_grid 3250 5 0
  = Ok (wavelength constant_grid,
        mkQuantity [4; 5; 6] (metadata_spectrum_unit constant_grid)).
Proof.
  apply (get_spectrum_reproduces_constant constant_grid 3250 5 0
           [3000; 3500] [5] [0] [4; 5; 6]).
  - intros t Ht.
    assert (Hax : metadata constant_grid Temperature = [3000; 3500])
      by (Rrun; reflexivity).
    rewrite Hax in Ht. simpl in Ht. destruct Ht as [<-|[<-|[]]]; lra.
  - Rrun. reflexivity.
  - Rrun. reflexivity.
  - Rrun. reflexivity.
  - simpl. intros k [<-|[<-|[]]]; Rrun; reflexivity.
Defined.

Lemma add_rows_nonnegative (r s : list R) :
  Forall (fun x => 0 <= x) r -> Forall (fun x => 0 <= x) s ->
  Forall (fun x => 0 <= x) (add_rows r s).
Proof.
  intros Hr. revert s. induction Hr as [|x r Hx _ IH]; intros s Hs; simpl;
    [constructor|].
  destruct Hs as [|y s Hy Hs]; constructor.
  - change (0 <= x + y). lra.
  - apply IH. exact Hs.
Qed.

Lemma scale_rows_nonnegative (ws : list R) (rows : list (list R)) :
  Forall unit_weight ws ->
  Forall (Forall (fun x => 0 <= x)) rows ->
  Forall (Forall (fun x => 0 <= x)) (scale_rows ws rows).
Proof.
  intros Hws. revert rows. induction Hws as [|w ws Hw _ IH]; intros rows Hrows;
    simpl; [constructor|].
  destruct Hrows as [|s rows Hs Hrows]; constructor.
  - rewrite Forall_forall in *. intros y Hy.
    apply in_map_iff in Hy. destruct Hy as (x & <- & Hx).
    specialize (Hs x Hx). unfold unit_weight in Hw.
    change (0 <= w * x). nra.
  - apply IH. exact Hrows.
Qed.

Lemma np_sum_axis0_nonnegative (rows : list (list R)) :
  Forall (Forall (fun x => 0 <= x)) rows ->
  Forall (fun x => 0 <= x) (np_sum_axis0 rows).
Proof.
  intros H. destruct H as [|r rows Hr Hrows]; simpl; [constructor|].
  revert r Hr. induction Hrows as [|s rows Hs _ IH]; intros r Hr; simpl;
    [exact Hr|].
  apply IH. apply add_rows_nonnegative; assumption.
Qed.

(** X13. Interpolation keeps fluxes non-negative: on a grid of positive
    temperatures whose stored spectra have no negative entry, no spectrum
    that [get_spectrum] returns has one. *)
Theorem get_spectrum_nonnegative
    (self : PHOENIXLibrary R) (temperature logg metallicity : R)
    (w q : Quantity R) :
  (forall t, In t (metadata self Temperature) -> 0 < t) ->
  (forall key s, models_get (models self) key = Some s ->
                 Forall (fun x => 0 <= x) s) ->
  get_spectrum self temperature logg metallicity = Ok (w, q) ->
  Forall (fun x => 0 <= x) (value q).
Proof.
  intros Hpos Hstored Hrun.
  destruct (get_spectrum_bounds_found self _ _ _ _ Hrun)
    as (bT & bG & bZ & HT & HG & HZ).
  rewrite (get_spectrum_in_range self _ _ _ bT bG bZ Hpos HT HG HZ) in Hrun.
  destruct (lookup_all self (lattice_keys bT bG bZ)) as [specs|e] eqn:Hl;
    [|discriminate].
  assert (Hspecs : Forall (Forall (fun x => 0 <= x)) specs).
  { eapply Forall_impl; [|exact (lookup_all_stored self _ _ Hl)].
    intros s [k Hk]. exact (Hstored k s Hk). }
  injection Hrun as _ <-. simpl value.
  destruct (Nat.eqb _ 1).
  - destruct Hspecs; simpl; [constructor | assumption].
  - apply np_sum_axis0_nonnegative. apply scale_rows_nonnegative; [|exact Hspecs].
    apply combined_unit.
    + exact (log_weights_unit self temperature _ bT Hpos HT).
    + exact (linear_weights_unit self logg Logg _ bG HG).
    + exact (linear_weights_unit self metallicity Metallicity _ bZ HZ).
Qed.

Lemma get_spectrum_nonnegative_witness :
  Forall (fun x => 0 <= x) [2.5; 3.5; 4.5].
Proof.
  apply (get_spectrum_nonnegative example_grid 3000 4.75 0
           (mkQuantity [1; 2; 3] "micron")
           (mkQuantity [2.5; 3.5; 4.5] "ph / (m2 nm s)")).
  - exact example_temperatures_positive.
  - intros key s Hs. apply models_get_In in Hs. simpl in Hs.
    repeat (destruct Hs as [Hs|Hs];
            [injection Hs as _ <-; repeat constructor; lra|]).
    contradiction.
  - exact get_spectrum_between_loggs.
Defined.

(** ** The loop of [_create_grid] and the grid it leaves *)

Section CreateGridFacts.
Context {A : Type} {num : Num A} {lg : Log A}.

Lemma models_get_stored (d : list ((A * A * A) * list A)) key s :
  models_get d key = Some s -> exists k, In (k, s) d.
Proof.
  induction d as [|[k v] d IH]; simpl; [discriminate|].
  destruct (key_eqb k key).
  - intros H; injection H as <-. exists k. left. reflexivity.
  - intros H. destruct (IH H) as [k' Hk']. exists k'. right. exact Hk'.
Qed.

Lemma models_set_lengths (d : list ((A * A * A) * list A)) key v (L : nat) :
  Forall (fun kv => List.length (snd kv) = L) d ->
  List.length v = L ->
  Forall (fun kv => List.length (snd kv) = L) (models_set d key v).
Proof.
  intros Hd Hv. induction Hd as [|[k x] d Hx Hd IH]; simpl.
  - constructor; [exact Hv | constructor].
  - destruct (key_eqb k key); constructor; auto.
Qed.

Lemma create_grid_from (w0 : list A) (files : list binned_file) :
  forall d,
  Forall (fun kv => List.length (snd kv) = List.length w0) d ->
  (Forall (fun file : binned_file => List.length (snd file) = List.length w0)
          files ->
   exists d',
     for_each files create_grid_body (Some w0, d) = Ok (Some w0, d')
     /\ Forall (fun kv => List.length (snd kv) = List.length w0) d')
  /\ (~ Forall (fun file : binned_file => List.length (snd file) = List.length w0)
        files ->
      for_each files create_grid_body (Some w0, d) = Raise AssertionError).
Proof.
  induction files as [|[[key w] f] files IH]; intros d Hd.
  - split.
    + intros _. exists d. split; [reflexivity | exact Hd].
    + intros H. exfalso. apply H. constructor.
  - cbn [for_each create_grid_body].
    destruct (Nat.eqb (List.length f) (List.length w0)) eqn:Hf.
    + apply Nat.eqb_eq in Hf. cbn [bind].
      destruct (IH (models_set d key f) (models_set_lengths d key f _ Hd Hf))
        as [Hok Hbad].
      split.
      * intros Hall. apply Hok. inversion Hall; assumption.
      * intros Hnot. apply Hbad. intros Hall. apply Hnot.
        constructor; [exact Hf | exact Hall].
    + apply Nat.eqb_neq in Hf. split.
      * intros Hall. inversion Hall; subst. simpl in *. contradiction.
      * intros _. reflexivity.
Qed.

(** X14. The loop of [_create_grid] accepts the binned files exactly when the flux
    array of every file has the length of the wavelength array of the first
    file, which it keeps as the shared wavelength; every spectrum of the
    dictionary it builds then has that length. Otherwise its assertion fails. *)
Theorem create_grid_loop_checks_lengths
    (key0 : A * A * A) (w0 f0 : list A) (rest : list binned_file) :
  let files : list binned_file := (key0, w0, f0) :: rest in
  let fits (file : binned_file) := List.length (snd file) = List.length w0 in
  (Forall fits files ->
   exists d,
     create_grid_loop files = Ok (Some w0, d)
     /\ forall key s, models_get d key = Some s ->
                      List.length s = List.length w0)
  /\ (~ Forall fits files -> create_grid_loop files = Raise AssertionError).
Proof.
  intros files fits. unfold create_grid_loop, files.
  cbn [for_each create_grid_body].
  destruct (Nat.eqb (List.length f0) (List.length w0)) eqn:Hf.
  - apply Nat.eqb_eq in Hf. cbn [bind models_set].
    assert (Hd : Forall (fun kv : (A * A * A) * list A =>
                           List.length (snd kv) = List.length w0) [(key0, f0)])
      by (constructor; [exact Hf | constructor]).
    destruct (create_grid_from w0 rest [(key0, f0)] Hd) as [Hok Hbad].
    split.
    + intros Hall.
      destruct Hok as (d & Heq & Hlen); [inversion Hall; assumption|].
      exists d. split; [exact Heq|].
      intros key s Hs. destruct (models_get_stored d key s Hs) as [k Hk].
      rewrite Forall_forall in Hlen. exact (Hlen _ Hk).
    + intros Hnot. apply Hbad. intros Hall. apply Hnot.
      constructor; [exact Hf | exact Hall].
  - apply Nat.eqb_neq in Hf. split.
    + intros Hall. inversion Hall; subst. unfold fits in *. simpl in *.
      contradiction.
    + intros _. reflexivity.
Qed.

(** [get_spectrum] at a key of [models], on a grid that obeys [indexed]. *)
Lemma get_spectrum_at_key (self : PHOENIXLibrary A) T g z s :
  indexed self ->
  models_get (models self) (T, g, z) = Some s ->
  get_spectrum self T g z
  = Ok (wavelength self, mkQuantity s (metadata_spectrum_unit self)).
Proof.
  intros Hidx Hs. unfold get_spectrum. cbv zeta.
  rewrite (find_bounds_contained self T Temperature)
    by exact (Hidx _ _ Hs Temperature).
  rewrite (find_bounds_contained self g Logg) by exact (Hidx _ _ Hs Logg).
  rewrite (find_bounds_contained self z Metallicity)
    by exact (Hidx _ _ Hs Metallicity).
  cbn. unfold models_getitem. rewrite Hs. reflexivity.
Qed.

End CreateGridFacts.

Lemma create_grid_loop_checks_lengths_witness :
  exists d,
    create_grid_loop example_files = Ok (Some [1; 2; 3], d)
    /\ forall key s, models_get d key = Some s -> List.length s = 3%nat.
Proof.
  apply (proj1 (create_grid_loop_checks_lengths
                  (3000, 4.5, 0) [1; 2; 3] [1; 2; 3]
                  [ ((3000, 5, 0), [1; 2; 3], [4; 5; 6]);
                    ((3000, 4.5, 0), [1; 2; 3], [7; 8; 9]) ])).
  repeat constructor.
Defined.

(** A flux array of another length stops the loop. *)
Example create_grid_loop_mismatch :
  create_grid_loop
    [ ((3000, 4.5, 0), [1; 2; 3], [1; 2; 3]);
      ((3000, 5, 0), [1; 2], [4; 5]) ]
  = Raise (@AssertionError R).
Proof. Rrun. reflexivity. Qed.

Lemma models_get_set_same (d : list ((R * R * R) * list R)) key v :
  models_get (models_set d key v) key = Some v.
Proof.
  induction d as [|[k x] d IH]; simpl.
  - rewrite (proj2 (key_eqb_eq key key) eq_refl). reflexivity.
  - destruct (key_eqb k key) eqn:Hk; simpl; rewrite Hk; [reflexivity | exact IH].
Qed.

Lemma models_get_set_other (d : list ((R * R * R) * list R)) key key' v :
  key <> key' ->
  models_get (models_set d key v) key' = models_get d key'.
Proof.
  intros Hne. induction d as [|[k x] d IH]; simpl.
  - destruct (key_eqb key key') eqn:Hk; [|reflexivity].
    apply key_eqb_eq in Hk. contradiction.
  - destruct (key_eqb k key) eqn:Hk; simpl.
    + apply key_eqb_eq in Hk. subst k.
      destruct (key_eqb key key') eqn:Hk'; [|reflexivity].
      apply key_eqb_eq in Hk'. contradiction.
    + rewrite IH. reflexivity.
Qed.

Lemma create_grid_keeps_other_keys (post : list (@binned_file R)) key :
  (forall file, In file post -> fst (fst file) <> key) ->
  forall sw d sw' d',
  for_each post create_grid_body (sw, d) = Ok (sw', d') ->
  models_get d' key = models_get d key.
Proof.
  induction post as [|[[k w] f] post IH]; intros Hother sw d sw' d' H.
  - simpl in H. injection H as _ <-. reflexivity.
  - cbn [for_each create_grid_body] in H.
    destruct (Nat.eqb _ _); cbn [bind] in H; [|discriminate].
    rewrite (IH (fun file Hin => Hother file (or_intror Hin)) _ _ _ _ H).
    apply models_get_set_other.
    exact (Hother (k, w, f) (or_introl eq_refl)).
Qed.

(** X15. What the loop of [_create_grid] stores under a key is what [get_spectrum]
    returns for that key on the grid built from the loop's dictionary and
    shared wavelength: the flux array of the last file with that key,
    unchanged, with the wavelength array. *)
Theorem created_grid_returns_last_stored
    (pre post : list (@binned_file R)) (temperature logg metallicity : R)
    (w f wl : list R) (d : list ((R * R * R) * list R))
    (wavelength_unit spectrum_unit : string) :
  create_grid_loop (pre ++ ((temperature, logg, metallicity), w, f) :: post)
  = Ok (Some wl, d) ->
  (forall file, In file post ->
                fst (fst file) <> (temperature, logg, metallicity)) ->
  get_spectrum (created_grid d wl wavelength_unit spectrum_unit)
               temperature logg metallicity
  = Ok (mkQuantity wl wavelength_unit, mkQuantity f spectrum_unit).
Proof.
  intros Hloop Hother.
  assert (Hget : models_get d (temperature, logg, metallicity) = Some f).
  { unfold create_grid_loop in Hloop. rewrite for_each_app in Hloop.
    destruct (for_each pre create_grid_body (None, [])) as [[sw1 d1]|e];
      cbn [bind] in Hloop; [|discriminate].
    cbn [for_each create_grid_body] in Hloop.
    destruct (Nat.eqb _ _); cbn [bind] in Hloop; [|discriminate].
    rewrite (create_grid_keeps_other_keys post _ Hother _ _ _ _ Hloop).
    apply models_get_set_same. }
  apply (get_spectrum_at_key (created_grid d wl wavelength_unit spectrum_unit)).
  - apply created_grid_indexed.
  - exact Hget.
Qed.

Lemma created_grid_returns_last_stored_witness :
  get_spectrum
    (created_grid [((3000, 4.5, 0), [7; 8; 9]); ((3000, 5, 0), [4; 5; 6])]
                  [1; 2; 3] "micron" "ph / (m2 nm s)")
    3000 4.5 0
  = Ok (mkQuantity [1; 2; 3] "micron", mkQuantity [7; 8; 9] "ph / (m2 nm s)").
Proof.
  apply (created_grid_returns_last_stored
           [ ((3000, 4.5, 0), [1; 2; 3], [1; 2; 3]);
             ((3000, 5, 0), [1; 2; 3], [4; 5; 6]) ]
           [] 3000 4.5 0 [1; 2; 3] [7; 8; 9]).
  - Rrun. reflexivity.
  - intros file [].
Defined.
